(** * Query splitting in snuba: a shallow embedding and its properties

    The development follows [snuba/web/split.py] (the pluggable
    [TimeSplitQueryStrategy] and [ColumnSplitQueryStrategy]) and
    [snuba/datasets/plans/split.py] (the older combined
    [SplitQueryPlanExecutionStrategy]).

    Python objects that are shared and mutated (requests handed to the query
    runner, result envelopes that are extended in place) live in an explicit
    store; the strategies are written in a small state-and-exception monad
    over that store. *)

From Stdlib Require Import ZArith Lia Bool Sorted DecimalString DecimalZ.
From stdpp Require Import base option list gmap strings.

Local Open Scope string_scope.
Local Open Scope list_scope.
Local Open Scope Z_scope.

(** ** Data model *)

(** Hashable values found in result rows and in condition literals. *)
Inductive Scalar :=
  | SStr (s : string)
  | SInt (n : Z).

#[global] Instance Scalar_eq_dec : EqDecision Scalar.
Proof. solve_decision. Defined.

(** The third component of a condition: [Union[str, List[Any]]]. *)
Inductive Literal :=
  | LScalar (v : Scalar)
  | LList (vs : list Scalar).

#[global] Instance Literal_eq_dec : EqDecision Literal.
Proof. solve_decision. Defined.

(** The left-hand side of a condition is a column name or a function
    expression (a nested list); only a column name can equal a [str]. *)
Inductive Lhs :=
  | Col (name : string)
  | FnExpr (parts : list string).

(** A top-level entry of [conditions] is a comparison triple or an OR-group
    of comparison triples. *)
Inductive Condition :=
  | Simple (lhs : Lhs) (op : string) (lit : Literal)
  | AnyOf (alts : list (Lhs * string * Literal)).

Inductive OrderKey :=
  | OKey (s : string)
  | OFn (parts : list string).

(** [Query.get_orderby()] is absent, a single key, or a list of keys. *)
Inductive OrderBy :=
  | OrdNone
  | OrdOne (k : OrderKey)
  | OrdMany (ks : list OrderKey).

Record Query := mkQuery {
  selected_columns : option (list string);
  aggregations : list string;
  conditions : option (list Condition);
  groupby : option (list string);
  orderby : OrderBy;
  limit : option Z;
  offset : Z
}.

Record Request := mkRequest {
  query : Query;
  extensions : gmap string (gmap string Literal)
}.

Definition Row := gmap string Scalar.

(** [RawQueryResult]: [result["data"]] and the rest of the envelope. *)
Record RawQueryResult := mkResult {
  data : list Row;
  extra : string
}.

(** The three runtime settings read through [state.get_configs], after the
    defaults of the call sites have been applied. *)
Record Config := mkConfig {
  use_split : Z;
  date_align_seconds : Z;
  split_step : Z
}.

(** ** Query accessors and mutators *)

Definition get_conditions (q : Query) : list Condition :=
  default [] (conditions q).

Definition set_conditions (cs : list Condition) (q : Query) : Query :=
  mkQuery (selected_columns q) (aggregations q) (Some cs) (groupby q)
          (orderby q) (limit q) (offset q).

Definition add_conditions (cs : list Condition) (q : Query) : Query :=
  set_conditions (get_conditions q ++ cs) q.

Definition set_offset (o : Z) (q : Query) : Query :=
  mkQuery (selected_columns q) (aggregations q) (conditions q) (groupby q)
          (orderby q) (limit q) o.

Definition set_limit (l : Z) (q : Query) : Query :=
  mkQuery (selected_columns q) (aggregations q) (conditions q) (groupby q)
          (orderby q) (Some l) (offset q).

Definition set_selected_columns (cols : list string) (q : Query) : Query :=
  mkQuery (Some cols) (aggregations q) (conditions q) (groupby q)
          (orderby q) (limit q) (offset q).

Definition with_query (f : Query -> Query) (r : Request) : Request :=
  mkRequest (f (query r)) (extensions r).

(** [request.extensions[ns][key] = v] *)
Definition set_extension (ns key : string) (v : Literal) (r : Request) : Request :=
  mkRequest (query r)
            (<[ns := <[key := v]> (default ∅ (extensions r !! ns))]> (extensions r)).

(** [util.to_list]: a list stays, anything else is wrapped. *)
Definition to_list (o : OrderBy) : list (option OrderKey) :=
  match o with
  | OrdNone => [None]
  | OrdOne k => [Some k]
  | OrdMany ks => map Some ks
  end.

(** Modelled from the spec: [snuba.util.is_condition] is not part of the
    sources at hand; the data model describes conditions as comparisons
    `(field, operator, literal)`, so a triple is a condition and a nested
    group is not. *)
Definition is_condition (c : Condition) : bool :=
  match c with
  | Simple _ _ _ => true
  | AnyOf _ => false
  end.

Definition _identify_condition (c : Condition) (field operand : string) : bool :=
  is_condition c &&
  match c with
  | Simple (Col f) op _ => String.eqb f field && String.eqb op operand
  | _ => false
  end.

Definition _replace_condition (field operand : string) (new_literal : Literal)
    (q : Query) : Query :=
  set_conditions
    (map (fun cond =>
            if negb (_identify_condition cond field operand) then cond
            else Simple (Col field) operand new_literal)
         (get_conditions q))
    q.

(** [next(condition[2] for condition in conds if _identify_condition(...))] *)
Fixpoint first_literal (conds : list Condition) (field operand : string)
    : option Literal :=
  match conds with
  | [] => None
  | c :: rest =>
      if _identify_condition c field operand then
        match c with
        | Simple _ _ lit => Some lit
        | AnyOf _ => None
        end
      else first_literal rest field operand
  end.

(** ** Preconditions *)

Definition _is_query_splittable (cfg : Config) (q : Query) : bool :=
  let query_limit := match limit q with
                     | Some l => if l =? 0 then 0 else l
                     | None => 0
                     end in
  (0 <? use_split cfg) && (0 <? query_limit) &&
  negb (match groupby q with Some (_ :: _) => true | _ => false end).

Definition orderby_is_desc (timestamp_col : string) (q : Query) : bool :=
  match firstn 1 (to_list (orderby q)) with
  | [Some (OKey s)] => String.eqb s (String.append "-" timestamp_col)
  | _ => false
  end.

Definition TimeSplit_can_execute (cfg : Config) (timestamp_col : string)
    (request : Request) : bool :=
  let q := query request in
  let has_from_date :=
    existsb (fun c => _identify_condition c timestamp_col ">=") (get_conditions q) in
  let has_to_date :=
    existsb (fun c => _identify_condition c timestamp_col "<") (get_conditions q) in
  _is_query_splittable cfg q && has_from_date && has_to_date &&
  orderby_is_desc timestamp_col q && (offset q <? 1000).


(** ** Datetimes

    A [datetime] is the number of microseconds since [datetime.min]
    (0001-01-01T00:00:00); [datetime.max] is 9999-12-31T23:59:59.999999.
    [None] stands for Python's [OverflowError]. *)

Definition datetime_max : Z := 315537897599999999.

(** [timedelta(seconds=s)], in microseconds; the day count is bounded. *)
Definition timedelta (seconds : Z) : option Z :=
  if Z.abs (seconds / 86400) <=? 999999999 then Some (seconds * 1000000)
  else None.

Definition datetime_in_range (t : Z) : bool :=
  (0 <=? t) && (t <=? datetime_max).

(** [dt - timedelta(seconds=s)] *)
Definition datetime_minus (dt seconds : Z) : option Z :=
  match timedelta seconds with
  | Some td => if datetime_in_range (dt - td) then Some (dt - td) else None
  | None => None
  end.

(** [dt + timedelta(seconds=s)] *)
Definition datetime_plus (dt seconds : Z) : option Z :=
  match timedelta seconds with
  | Some td => if datetime_in_range (dt + td) then Some (dt + td) else None
  | None => None
  end.

(** Every time we find zero results for a given step, expand the search
    window by this factor. *)
Definition STEP_GROWTH : Z := 10.

(** [math.ceil(a / float(b))] for [b > 0]; the quotient is taken exactly
    (row counts are far below the precision of a double). *)
Definition ceil_div (a b : Z) : Z := (a + b - 1) / b.

Definition len {A} (l : list A) : Z := Z.of_nat (length l).

(** ** Collaborators *)

(** Functions of the code base that the strategies call and that are not
    part of the sources at hand. *)
Record Env := mkEnv {
  (** [util.parse_datetime(value, alignment)]; [None] when it raises *)
  parse_datetime : Literal -> Z -> option Z;
  (** [datetime.isoformat()] *)
  isoformat : Z -> string;
  (** [Query.get_all_referenced_columns()] *)
  get_all_referenced_columns : Query -> list string;
  (** Python's [<] on the values of a result column *)
  value_lt : Scalar -> Scalar -> bool;
  (** [list(set(xs))]: the iteration order of a set is unspecified *)
  list_of_set : list Scalar -> list Scalar
}.

(** The query runner: a callable with private state that may mutate the
    request it receives and returns a new result envelope. *)
Record Runner := mkRunner {
  rstate : Type;
  run : rstate -> Request -> rstate * Request * RawQueryResult
}.

(** ** The store and the monad *)

Abbreviation loc := nat.

Record World (S : Type) := mkWorld {
  requests : gmap nat Request;
  results : gmap nat RawQueryResult;
  runner_state : S;
  (** runner invocations, oldest first: the object passed and its value *)
  calls : list (nat * Request)
}.
Arguments mkWorld {S}.
Arguments requests {S}.
Arguments results {S}.
Arguments runner_state {S}.
Arguments calls {S}.

Inductive exn :=
  | StopIteration
  | ValueError
  | OverflowError
  | KeyError
  | DanglingReference.

Inductive res (A : Type) :=
  | Ok (a : A)
  | Raise (e : exn)
  | OutOfFuel.
Arguments Ok {A}.
Arguments Raise {A}.
Arguments OutOfFuel {A}.

Definition M (S A : Type) : Type := World S -> res A * World S.

Definition ret {S A} (a : A) : M S A := fun w => (Ok a, w).

Definition bind {S A B} (m : M S A) (k : A -> M S B) : M S B :=
  fun w =>
    match m w with
    | (Ok a, w') => k a w'
    | (Raise e, w') => (Raise e, w')
    | (OutOfFuel, w') => (OutOfFuel, w')
    end.

Notation "x <- c ;; k" := (bind c (fun x => k))
  (at level 20, c at level 99, k at level 200, only parsing).
Notation "c ;;; k" := (bind c (fun _ => k))
  (at level 100, k at level 200, only parsing, right associativity).

Definition raise {S A} (e : exn) : M S A := fun w => (Raise e, w).

Definition lift_option {S A} (e : exn) (o : option A) : M S A :=
  match o with
  | Some a => ret a
  | None => raise e
  end.

Definition get_request {S} (l : loc) : M S Request :=
  fun w => lift_option DanglingReference (requests w !! l) w.

Definition modify_request {S} (l : loc) (f : Request -> Request) : M S unit :=
  fun w =>
    match requests w !! l with
    | Some r =>
        (Ok tt, mkWorld (<[l := f r]> (requests w)) (results w)
                        (runner_state w) (calls w))
    | None => (Raise DanglingReference, w)
    end.

Definition modify_query {S} (l : loc) (f : Query -> Query) : M S unit :=
  modify_request l (with_query f).

(** [copy.deepcopy(request)]: a new object with the same value. *)
Definition deepcopy {S} (l : loc) : M S loc :=
  fun w =>
    match requests w !! l with
    | Some r =>
        let l' := fresh (dom (requests w)) in
        (Ok l', mkWorld (<[l' := r]> (requests w)) (results w)
                        (runner_state w) (calls w))
    | None => (Raise DanglingReference, w)
    end.

(** [runner(request)]: the runner sees the object, may change it, and
    returns a new result object. *)
Definition call_runner (R : Runner) (l : loc) : M (rstate R) loc :=
  fun w =>
    match requests w !! l with
    | Some r =>
        let '(s', r', result) := run R (runner_state w) r in
        let rl := fresh (dom (results w)) in
        (Ok rl, mkWorld (<[l := r']> (requests w)) (<[rl := result]> (results w))
                        s' (calls w ++ [(l, r)]))
    | None => (Raise DanglingReference, w)
    end.

(** [result.result["data"]] *)
Definition get_data {S} (l : loc) : M S (list Row) :=
  fun w => lift_option DanglingReference (data <$> results w !! l) w.

(** [result.result["data"] = rows] *)
Definition set_data {S} (l : loc) (rows : list Row) : M S unit :=
  fun w =>
    match results w !! l with
    | Some r =>
        (Ok tt, mkWorld (requests w) (<[l := mkResult rows (extra r)]> (results w))
                        (runner_state w) (calls w))
    | None => (Raise DanglingReference, w)
    end.

(** ** Time splitting *)

(** The local variables of the [while] loop. *)
Record LoopVars := mkVars {
  overall_result : option loc;
  split_end : Z;
  split_start : Z;
  total_results : Z;
  remaining_offset : Z;
  step : Z
}.

Definition loop_condition (limit : Z) (v : LoopVars) : bool :=
  (split_start v <? split_end v) && (total_results v <? limit).

(** The next lower bound; the [try]/[except OverflowError] of the loop. *)
Definition next_split_start (split_end split_step from_date : Z) : Z :=
  match datetime_minus split_end split_step with
  | Some d => Z.max d from_date
  | None => from_date
  end.

(** [overall_result = result] the first time, [extend] afterwards
    (lines 144-147). *)
Definition merge_result {S} (overall_result : option loc) (result : loc)
    : M S loc :=
  match overall_result with
  | None => ret result
  | Some o =>
      new_rows <- get_data result ;;
      rows <- get_data o ;;
      set_data o (rows ++ new_rows) ;;;
      ret o
  end.

(** Trimming the offset from the front (lines 149-152). *)
Definition trim_offset {S} (overall : loc) (remaining_offset : Z) : M S Z :=
  rows <- get_data overall ;;
  if (0 <? remaining_offset) && (0 <? len rows) then
    let to_trim := Z.min remaining_offset (len rows) in
    set_data overall (skipn (Z.to_nat to_trim) rows) ;;;
    ret (remaining_offset - to_trim)
  else ret remaining_offset.

(** Counting, and sliding the window when more rows are needed
    (lines 154-176). *)
Definition advance {S} (limit from_date : Z) (v : LoopVars)
    (overall result : loc) (remaining_offset' : Z) : M S LoopVars :=
  rows <- get_data overall ;;
  let total := len rows in
  if total <? limit then
    last_rows <- get_data result ;;
    let step' :=
      if len last_rows =? 0 then step v * STEP_GROWTH
      else step v * ceil_div (limit - total) (len last_rows) in
    let split_end' := split_start v in
    ret (mkVars (Some overall) split_end'
                (next_split_start split_end' step' from_date)
                total remaining_offset' step')
  else
    ret (mkVars (Some overall) (split_end v) (split_start v)
                total remaining_offset' (step v)).

(** One iteration of the loop. [prepare] builds the sub-request (the two
    implementations differ there). *)
Definition time_split_body (R : Runner)
    (prepare : LoopVars -> M (rstate R) loc)
    (limit from_date : Z) (v : LoopVars) : M (rstate R) LoopVars :=
  split_request <- prepare v ;;
  result <- call_runner R split_request ;;
  overall <- merge_result (overall_result v) result ;;
  remaining_offset' <- trim_offset overall (remaining_offset v) ;;
  advance limit from_date v overall result remaining_offset'.

Fixpoint time_split_loop (R : Runner)
    (prepare : LoopVars -> M (rstate R) loc)
    (limit from_date : Z) (fuel : nat) (v : LoopVars) : M (rstate R) LoopVars :=
  if loop_condition limit v then
    match fuel with
    | O => fun w => (OutOfFuel, w)
    | S fuel' =>
        v' <- time_split_body R prepare limit from_date v ;;
        time_split_loop R prepare limit from_date fuel' v'
    end
  else ret v.

Definition iso_literal (E : Env) (t : Z) : Literal :=
  LScalar (SStr (isoformat E t)).

(** [snuba/web/split.py], lines 129-140. *)
Definition TimeSplit_prepare {S} (E : Env) (timestamp_col : string)
    (request : loc) (limit : Z) (v : LoopVars) : M S loc :=
  split_request <- deepcopy request ;;
  modify_query split_request
    (_replace_condition timestamp_col ">=" (iso_literal E (split_start v))) ;;;
  modify_query split_request
    (_replace_condition timestamp_col "<" (iso_literal E (split_end v))) ;;;
  modify_query split_request (set_offset 0) ;;;
  modify_query split_request
    (set_limit (limit - total_results v + remaining_offset v)) ;;;
  ret split_request.

(** [TimeSplitQueryStrategy.execute] *)
Definition TimeSplit_execute (E : Env) (R : Runner) (cfg : Config)
    (timestamp_col : string) (fuel : nat) (request : loc)
    : M (rstate R) (option loc) :=
  req <- get_request request ;;
  if negb (TimeSplit_can_execute cfg timestamp_col req) then ret None
  else
    let date_align := date_align_seconds cfg in
    let limit := default 0 (limit (query req)) in
    let remaining_offset := offset (query req) in
    to_date_str <- lift_option StopIteration
      (first_literal (get_conditions (query req)) timestamp_col "<") ;;
    from_date_str <- lift_option StopIteration
      (first_literal (get_conditions (query req)) timestamp_col ">=") ;;
    to_date <- lift_option ValueError (parse_datetime E to_date_str date_align) ;;
    from_date <- lift_option ValueError (parse_datetime E from_date_str date_align) ;;
    first_start <- lift_option OverflowError
      (datetime_minus to_date (split_step cfg)) ;;
    v <- time_split_loop R (TimeSplit_prepare E timestamp_col request limit)
           limit from_date fuel
           (mkVars None to_date (Z.max first_start from_date) 0
                   remaining_offset (split_step cfg)) ;;
    ret (overall_result v).

(** *** The combined strategy of [snuba/datasets/plans/split.py] *)

(** [request.extensions[ns][key]] *)
Definition get_extension {S} (l : loc) (ns key : string) : M S Literal :=
  r <- get_request l ;;
  ext <- lift_option KeyError (extensions r !! ns) ;;
  lift_option KeyError (ext !! key).

(** [request.extensions[ns][key] = v]; the namespace must exist. *)
Definition put_extension {S} (l : loc) (ns key : string) (v : Literal) : M S unit :=
  r <- get_request l ;;
  _ <- lift_option KeyError (extensions r !! ns) ;;
  modify_request l (set_extension ns key v).

(** [__time_split], lines 116-130. *)
Definition Legacy_prepare {S} (E : Env) (request : loc) (limit : Z)
    (v : LoopVars) : M S loc :=
  split_request <- deepcopy request ;;
  put_extension split_request "timeseries" "from_date"
    (iso_literal E (split_start v)) ;;;
  put_extension split_request "timeseries" "to_date"
    (iso_literal E (split_end v)) ;;;
  modify_query split_request
    (add_conditions
       [Simple (Col "timestamp") ">=" (iso_literal E (split_start v));
        Simple (Col "timestamp") "<" (iso_literal E (split_end v))]) ;;;
  modify_query split_request (set_offset 0) ;;;
  modify_query split_request
    (set_limit (limit - total_results v + remaining_offset v)) ;;;
  ret split_request.

(** [SplitQueryPlanExecutionStrategy.__time_split] *)
Definition Legacy_time_split (E : Env) (R : Runner) (cfg : Config)
    (fuel : nat) (request : loc) : M (rstate R) (option loc) :=
  req <- get_request request ;;
  let date_align := date_align_seconds cfg in
  let limit := default 0 (limit (query req)) in
  let remaining_offset := offset (query req) in
  to_date_str <- get_extension request "timeseries" "to_date" ;;
  to_date <- lift_option ValueError (parse_datetime E to_date_str date_align) ;;
  from_date_str <- get_extension request "timeseries" "from_date" ;;
  from_date <- lift_option ValueError (parse_datetime E from_date_str date_align) ;;
  first_start <- lift_option OverflowError
    (datetime_minus to_date (split_step cfg)) ;;
  v <- time_split_loop R (Legacy_prepare E request limit)
         limit from_date fuel
         (mkVars None to_date (Z.max first_start from_date) 0
                 remaining_offset (split_step cfg)) ;;
  ret (overall_result v).

(** ** Column splitting *)

(** [min(values)]: the first value that nothing later is smaller than;
    [None] on an empty sequence ([ValueError]). *)
Definition py_min (lt : Scalar -> Scalar -> bool) (values : list Scalar)
    : option Scalar :=
  match values with
  | [] => None
  | x :: rest =>
      Some (fold_left (fun best y => if lt y best then y else best) rest x)
  end.

(** [max(values)] *)
Definition py_max (lt : Scalar -> Scalar -> bool) (values : list Scalar)
    : option Scalar :=
  match values with
  | [] => None
  | x :: rest =>
      Some (fold_left (fun best y => if lt best y then y else best) rest x)
  end.

(** [[event[column] for event in rows]]; [None] is a [KeyError]. *)
Definition column_values (column : string) (rows : list Row)
    : option (list Scalar) :=
  mapM (fun event : Row => event !! column) rows.

Definition get_min_columns (id_column project_column timestamp_column : string)
    : list string :=
  [id_column; project_column; timestamp_column].

Definition ColumnSplit_can_execute (E : Env) (cfg : Config)
    (id_column project_column timestamp_column : string) (request : Request)
    : bool :=
  let q := query request in
  if negb (_is_query_splittable cfg q) then false
  else
    let total_col_count := len (get_all_referenced_columns E q) in
    let copied_query :=
      set_selected_columns
        (get_min_columns id_column project_column timestamp_column) q in
    let min_col_count := len (get_all_referenced_columns E copied_query) in
    match selected_columns q with
    | Some (_ :: _) => true
    | _ => false
    end
    && match aggregations q with [] => true | _ => false end
    && (min_col_count <? total_col_count).

(** The rewriting of the second-phase request in
    [ColumnSplitQueryStrategy.execute], lines 237-270. *)
Definition ColumnSplit_second_phase {S} (E : Env)
    (id_column project_column timestamp_column : string)
    (request : loc) (rows : list Row) : M S loc :=
  request' <- deepcopy request ;;
  ids <- lift_option KeyError (column_values id_column rows) ;;
  let event_ids := list_of_set E ids in
  modify_query request'
    (add_conditions [Simple (Col id_column) "IN" (LList event_ids)]) ;;;
  modify_query request' (set_offset 0) ;;;
  modify_query request' (set_limit (len event_ids)) ;;;
  projects <- lift_option KeyError (column_values project_column rows) ;;
  let project_ids := list_of_set E projects in
  modify_query request'
    (_replace_condition project_column "IN" (LList project_ids)) ;;;
  timestamps <- lift_option KeyError (column_values timestamp_column rows) ;;
  oldest <- lift_option ValueError (py_min (value_lt E) timestamps) ;;
  from_date <- lift_option ValueError (parse_datetime E (LScalar oldest) 1) ;;
  modify_query request'
    (_replace_condition timestamp_column ">=" (iso_literal E from_date)) ;;;
  newest <- lift_option ValueError (py_max (value_lt E) timestamps) ;;
  newest_date <- lift_option ValueError (parse_datetime E (LScalar newest) 1) ;;
  to_date <- lift_option OverflowError (datetime_plus newest_date 1) ;;
  modify_query request'
    (_replace_condition timestamp_column "<" (iso_literal E to_date)) ;;;
  ret request'.

(** [ColumnSplitQueryStrategy.execute] *)
Definition ColumnSplit_execute (E : Env) (R : Runner) (cfg : Config)
    (id_column project_column timestamp_column : string) (request : loc)
    : M (rstate R) (option loc) :=
  req <- get_request request ;;
  if negb (ColumnSplit_can_execute E cfg id_column project_column
             timestamp_column req)
  then ret None
  else
    minimal_request <- deepcopy request ;;
    modify_query minimal_request
      (set_selected_columns
         (get_min_columns id_column project_column timestamp_column)) ;;;
    result <- call_runner R minimal_request ;;
    rows <- get_data result ;;
    request' <-
      (match rows with
       | _ :: _ =>
           ColumnSplit_second_phase E id_column project_column
             timestamp_column request rows
       | [] => ret request
       end) ;;
    final <- call_runner R request' ;;
    ret (Some final).

(** [SplitQueryPlanExecutionStrategy.__col_split]: the same plan, with the
    project filter and the time range written to the extensions. *)
Definition Legacy_second_phase {S} (E : Env)
    (id_column project_column timestamp_column : string)
    (request : loc) (rows : list Row) : M S loc :=
  request' <- deepcopy request ;;
  ids <- lift_option KeyError (column_values id_column rows) ;;
  let event_ids := list_of_set E ids in
  modify_query request'
    (add_conditions [Simple (Col id_column) "IN" (LList event_ids)]) ;;;
  modify_query request' (set_offset 0) ;;;
  modify_query request' (set_limit (len event_ids)) ;;;
  projects <- lift_option KeyError (column_values project_column rows) ;;
  let project_ids := list_of_set E projects in
  put_extension request' "project" "project" (LList project_ids) ;;;
  timestamps <- lift_option KeyError (column_values timestamp_column rows) ;;
  oldest <- lift_option ValueError (py_min (value_lt E) timestamps) ;;
  from_date <- lift_option ValueError (parse_datetime E (LScalar oldest) 1) ;;
  put_extension request' "timeseries" "from_date" (iso_literal E from_date) ;;;
  newest <- lift_option ValueError (py_max (value_lt E) timestamps) ;;
  newest_date <- lift_option ValueError (parse_datetime E (LScalar newest) 1) ;;
  to_date <- lift_option OverflowError (datetime_plus newest_date 1) ;;
  put_extension request' "timeseries" "to_date" (iso_literal E to_date) ;;;
  ret request'.

Definition Legacy_col_split (E : Env) (R : Runner)
    (id_column project_column timestamp_column : string) (request : loc)
    : M (rstate R) loc :=
  minimal_request <- deepcopy request ;;
  modify_query minimal_request
    (set_selected_columns
       (get_min_columns id_column project_column timestamp_column)) ;;;
  result <- call_runner R minimal_request ;;
  rows <- get_data result ;;
  request' <-
    (match rows with
     | _ :: _ =>
         Legacy_second_phase E id_column project_column timestamp_column
           request rows
     | [] => ret request
     end) ;;
  call_runner R request'.

(** ** A store that answers queries exactly

    The reference against which the time split is judged: a fixed table,
    kept in the order the store sorts it (timestamp descending), from
    which a query takes the rows inside its timestamp bounds and then
    applies offset and limit. *)

(** The check [in_window] makes on one condition. *)
Definition window_check (E : Env) (ts : string) (t : Z) (c : Condition)
    : bool :=
  match c with
  | Simple (Col f) op lit =>
      if String.eqb f ts then
        if String.eqb op ">=" then
          match parse_datetime E lit 1 with
          | Some a => a <=? t
          | None => false
          end
        else if String.eqb op "<" then
          match parse_datetime E lit 1 with
          | Some b => t <? b
          | None => false
          end
        else true
      else true
  | _ => true
  end.

Definition in_window (E : Env) (timestamp_col : string)
    (conds : list Condition) (t : Z) : bool :=
  forallb (window_check E timestamp_col t) conds.

Definition paginate {A} (q : Query) (rows : list A) : list A :=
  let rest := skipn (Z.to_nat (offset q)) rows in
  match limit q with
  | Some l => firstn (Z.to_nat l) rest
  | None => rest
  end.

Definition ideal_select (E : Env) (timestamp_col : string) (row_ts : Row -> Z)
    (table : list Row) (r : Request) : list Row :=
  paginate (query r)
    (List.filter
       (fun row => in_window E timestamp_col (get_conditions (query r)) (row_ts row))
       table).





(** A bound on the number of iterations of the time-split loop. *)
Definition iteration_bound (from_date to_date split_step : Z) : nat :=
  Z.to_nat ((to_date - from_date) / (split_step * 1000000) + 2).

(** ** Concrete instances used in the examples *)

(** Datetimes printed as decimal numbers of microseconds. *)
Definition demo_isoformat (t : Z) : string :=
  NilEmpty.string_of_int (Z.to_int t).

Definition demo_parse (lit : Literal) (alignment : Z) : option Z :=
  match lit with
  | LScalar (SStr s) =>
      match NilEmpty.int_of_string s with
      | Some d => Some (Z.of_int d)
      | None => None
      end
  | _ => None
  end.

Definition demo_lt (a b : Scalar) : bool :=
  match a, b with
  | SInt x, SInt y => x <? y
  | SStr x, SStr y =>
      match demo_parse (LScalar a) 1, demo_parse (LScalar b) 1 with
      | Some x', Some y' => x' <? y'
      | _, _ => false
      end
  | _, _ => false
  end.

Definition demo_columns (q : Query) : list string :=
  default [] (selected_columns q).

Definition demo_env : Env :=
  mkEnv demo_parse demo_isoformat demo_columns demo_lt remove_dups.

Definition demo_row (id project seconds : Z) : Row :=
  {[ "event_id" := SInt id; "project_id" := SInt project;
     "timestamp" := SStr (demo_isoformat (seconds * 1000000)) ]}.

Definition demo_row_ts (row : Row) : Z :=
  match row !! "timestamp" with
  | Some v => default 0 (demo_parse (LScalar v) 1)
  | None => 0
  end.

(** Three events, newest first, at seconds 7000, 5000 and 100. *)
Definition demo_table : list Row :=
  [demo_row 3 1 7000; demo_row 2 1 5000; demo_row 1 2 100].

(** A runner over a table that counts its invocations and clobbers the
    limit of the request it was given. *)
Definition demo_runner (table : list Row) : Runner :=
  mkRunner nat
    (fun n r =>
       (S n, with_query (set_limit 0) r,
        mkResult (ideal_select demo_env "timestamp" demo_row_ts table r) "")).

Definition demo_query (limit offset from_s to_s : Z) : Query :=
  mkQuery (Some ["event_id"; "project_id"; "timestamp"; "message"]) []
    (Some [Simple (Col "project_id") "IN" (LList [SInt 1; SInt 2]);
           Simple (Col "timestamp") ">=" (iso_literal demo_env (from_s * 1000000));
           Simple (Col "timestamp") "<" (iso_literal demo_env (to_s * 1000000))])
    None (OrdOne (OKey "-timestamp")) (Some limit) offset.

Definition demo_request (limit offset from_s to_s : Z) : Request :=
  mkRequest (demo_query limit offset from_s to_s)
    {[ "timeseries" :=
         {[ "from_date" := iso_literal demo_env (from_s * 1000000);
            "to_date" := iso_literal demo_env (to_s * 1000000) ]};
       "project" := {[ "project" := LList [SInt 1; SInt 2] ]} ]}.


(** A request with no [IN] condition on the project and no [>=] or [<]
    condition on the timestamp. *)
Definition demo_unfiltered_request : Request :=
  with_query
    (set_conditions
       [Simple (Col "project_id") "=" (LScalar (SInt 1));
        Simple (Col "timestamp") ">" (iso_literal demo_env 0)])
    (demo_request 2 0 0 7200).

Definition demo_config : Config := mkConfig 1 1 3600.

(** A store holding one request object, at location 0. *)
Definition demo_world (r : Request) : World nat :=
  mkWorld {[ 0%nat := r ]} ∅ 0%nat [].


(** ** The loop as a transition on the accumulated rows

    What one iteration does to the loop variables, as a function of the
    rows accumulated before it ([None] in the first iteration) and of the
    rows the runner returned. *)

Definition merged_rows (before : option (list Row)) (new_rows : list Row)
    : list Row :=
  match before with
  | None => new_rows
  | Some rows => rows ++ new_rows
  end.

Definition trim_count (remaining_offset : Z) (rows : list Row) : Z :=
  if (0 <? remaining_offset) && (0 <? len rows)
  then Z.min remaining_offset (len rows)
  else 0.

Definition trimmed_rows (v : LoopVars) (before : option (list Row))
    (new_rows : list Row) : list Row :=
  let merged := merged_rows before new_rows in
  skipn (Z.to_nat (trim_count (remaining_offset v) merged)) merged.

(** The row count the window estimate divides by. In the first iteration
    [result] and [overall_result] are the same object, so the count is
    taken after the offset has been trimmed from it. *)
Definition estimate_base (v : LoopVars) (before : option (list Row))
    (new_rows : list Row) : Z :=
  match before with
  | None => len (trimmed_rows v before new_rows)
  | Some _ => len new_rows
  end.

Definition step_vars (limit from_date : Z) (v : LoopVars) (overall : loc)
    (before : option (list Row)) (new_rows : list Row) : LoopVars :=
  let to_trim := trim_count (remaining_offset v) (merged_rows before new_rows) in
  let total := len (trimmed_rows v before new_rows) in
  if total <? limit then
    let base := estimate_base v before new_rows in
    let step' :=
      if base =? 0 then step v * STEP_GROWTH
      else step v * ceil_div (limit - total) base in
    mkVars (Some overall) (split_start v)
           (next_split_start (split_start v) step' from_date)
           total (remaining_offset v - to_trim) step'
  else
    mkVars (Some overall) (split_end v) (split_start v)
           total (remaining_offset v - to_trim) (step v).

(** The rows accumulated so far, as the store has them. *)
Definition accumulated {S} (w : World S) (v : LoopVars) : option (list Row) :=
  match overall_result v with
  | Some o => data <$> results w !! o
  | None => None
  end.

(** The overall result object is allocated. *)
Definition overall_valid {S} (w : World S) (v : LoopVars) : Prop :=
  match overall_result v with
  | Some o => is_Some (results w !! o)
  | None => True
  end.

(** Iterations left, counted in windows of [unit] microseconds. *)
Definition loop_measure (limit from_date unit : Z) (v : LoopVars) : Z :=
  if loop_condition limit v
  then (split_start v - from_date + unit - 1) / unit + 1
  else 0.

(** The sub-request of an iteration, as a value. *)
Definition TimeSplit_sub_request (E : Env) (timestamp_col : string)
    (limit : Z) (v : LoopVars) (original : Request) : Request :=
  with_query
    (fun q =>
       set_limit (limit - total_results v + remaining_offset v)
         (set_offset 0
            (_replace_condition timestamp_col "<" (iso_literal E (split_end v))
               (_replace_condition timestamp_col ">="
                  (iso_literal E (split_start v)) q))))
    original.
(** The first phase: a copy with the minimal projection goes to the
    runner. *)
Definition minimal_request (id_col project_col ts_col : string)
    (original : Request) : Request :=
  with_query (set_selected_columns (get_min_columns id_col project_col ts_col))
    original.

(** The second-phase request of the column split, as a value. *)
Definition ColumnSplit_second_request (E : Env)
    (id_column project_column timestamp_column : string)
    (event_ids project_ids : list Scalar) (from_date to_date : Z)
    (original : Request) : Request :=
  with_query
    (fun q =>
       _replace_condition timestamp_column "<" (iso_literal E to_date)
         (_replace_condition timestamp_column ">=" (iso_literal E from_date)
            (_replace_condition project_column "IN" (LList project_ids)
               (set_limit (len event_ids)
                  (set_offset 0
                     (add_conditions
                        [Simple (Col id_column) "IN" (LList event_ids)] q))))))
    original.

(** What the first phase yields for the second: the distinct ids and
    projects and the bounds of the narrowed time range. *)
Record Candidates := mkCandidates {
  event_ids : list Scalar;
  project_ids : list Scalar;
  narrowed_from : Z;
  narrowed_to : Z
}.

Definition candidates (E : Env)
    (id_column project_column timestamp_column : string) (rows : list Row)
    : option Candidates :=
  ids ← column_values id_column rows;
  projects ← column_values project_column rows;
  timestamps ← column_values timestamp_column rows;
  oldest ← py_min (value_lt E) timestamps;
  from_date ← parse_datetime E (LScalar oldest) 1;
  newest ← py_max (value_lt E) timestamps;
  newest_date ← parse_datetime E (LScalar newest) 1;
  to_date ← datetime_plus newest_date 1;
  Some (mkCandidates (list_of_set E ids) (list_of_set E projects)
                     from_date to_date).

(** [list(set(xs))] holds each value of [xs] once. *)
Definition set_semantics (E : Env) : Prop :=
  forall xs, NoDup (list_of_set E xs)
             /\ forall x, x ∈ list_of_set E xs <-> x ∈ xs.

(** The conditions of the second phase, rewritten in one pass. *)
Definition second_phase_condition (E : Env)
    (project_column timestamp_column : string) (project_ids : list Scalar)
    (from_date to_date : Z) (c : Condition) : Condition :=
  if _identify_condition c project_column "IN"
  then Simple (Col project_column) "IN" (LList project_ids)
  else if _identify_condition c timestamp_column ">="
  then Simple (Col timestamp_column) ">=" (iso_literal E from_date)
  else if _identify_condition c timestamp_column "<"
  then Simple (Col timestamp_column) "<" (iso_literal E to_date)
  else c.

(** The calls in [new] were all made on objects that did not exist in [w]
    and that differ from [request]. *)
Definition on_copies {S} (request : loc) (w : World S)
    (new : list (nat * Request)) : Prop :=
  Forall (fun c => c.1 <> request /\ requests w !! c.1 = None) new.

(** From [w] to [w'] the caller's request object kept its value, and the
    runner was only called on copies. *)
Definition original_untouched {S} (request : loc) (original : Request)
    (w w' : World S) : Prop :=
  requests w' !! request = Some original
  /\ exists new, calls w' = calls w ++ new /\ on_copies request w new.



(** Two events, at seconds 7000 and 100. *)
Definition demo_sparse_table : list Row :=
  [demo_row 3 1 7000; demo_row 1 2 100].

(** The loop variables on entry for the range [[0, 7200)] seconds and a
    step of one hour, with the given offset still to skip. *)
Definition demo_vars (offset : Z) : LoopVars :=
  mkVars None 7200000000 3600000000 0 offset 3600.

(** The outcome of [time_split_body], when it returned. *)
Definition returned_vars {S} (out : res LoopVars * World S) : option LoopVars :=
  match out with
  | (Ok v, _) => Some v
  | _ => None
  end.

(** ** Invariants *)

(** The frame of the three steps that follow the runner call: only the
    result store changes. *)
Definition same_frame {S} (w w' : World S) : Prop :=
  requests w' = requests w /\ runner_state w' = runner_state w
  /\ calls w' = calls w.

(** The loop keeps the window at least as wide as the configured step,
    and never goes below [from_date]. *)
Definition well_stepped (step0 from_date : Z) (v : LoopVars) : Prop :=
  step0 <= step v /\ from_date <= split_start v.

(** What the pluggable strategy's loop maintains: the caller's request
    object keeps its value, the overall result object exists, and the
    window is well stepped. *)
Definition TimeSplit_inv {S} (request : loc) (original : Request)
    (step0 from_date : Z) (v : LoopVars) (w : World S) : Prop :=
  requests w !! request = Some original
  /\ overall_valid w v
  /\ well_stepped step0 from_date v.

(** The caller's object is untouched, and the store only grows. *)
Definition original_kept {S} (request : loc) (original : Request)
    (w w' : World S) : Prop :=
  requests w' !! request = Some original
  /\ (forall k, is_Some (requests w !! k) -> is_Some (requests w' !! k))
  /\ exists new, calls w' = calls w ++ new /\ on_copies request w new.


(** ** The combined execution strategy

    [snuba/datasets/plans/split.py] and [snuba/datasets/plans/single_table.py]. *)

Record ColumnSplitSpec := mkSpec {
  id_column : string;
  project_column : string;
  timestamp_column : string
}.

(** [ColumnSplitSpec.get_min_columns] *)
Definition ColumnSplitSpec_get_min_columns (spec : ColumnSplitSpec) : list string :=
  [id_column spec; project_column spec; timestamp_column spec].

(** [SimpleQueryPlanExecutionStrategy.execute] *)
Definition Simple_execute (R : Runner) (request : loc) : M (rstate R) loc :=
  call_runner R request.

(** [use_split and limit and not request.query.get_groupby()], by Python
    truthiness. *)
Definition Legacy_common_conditions (cfg : Config) (q : Query) : bool :=
  negb (use_split cfg =? 0) && negb (default 0 (limit q) =? 0) &&
  negb (match groupby q with Some (_ :: _) => true | _ => false end).

(** The test that sends a request to [__col_split]. *)
Definition Legacy_use_col_split (E : Env) (split_spec : option ColumnSplitSpec)
    (q : Query) : bool :=
  match split_spec with
  | Some spec =>
      let total_col_count := len (get_all_referenced_columns E q) in
      let copied_query :=
        set_selected_columns (ColumnSplitSpec_get_min_columns spec) q in
      let min_col_count := len (get_all_referenced_columns E copied_query) in
      match selected_columns q with
      | Some (_ :: _) => true
      | _ => false
      end
      && match aggregations q with [] => true | _ => false end
      && (min_col_count <? total_col_count)
  | None => false
  end.

(** [SplitQueryPlanExecutionStrategy.execute]; [__time_split] may hand back
    [None]. *)
Definition Legacy_execute (E : Env) (R : Runner) (cfg : Config)
    (split_spec : option ColumnSplitSpec)
    (default_strategy : loc -> M (rstate R) loc) (fuel : nat) (request : loc)
    : M (rstate R) (option loc) :=
  req <- get_request request ;;
  let remaining_offset := offset (query req) in
  if Legacy_common_conditions cfg (query req) then
    if Legacy_use_col_split E split_spec (query req) then
      match split_spec with
      | Some spec =>
          result <- Legacy_col_split E R (id_column spec) (project_column spec)
                      (timestamp_column spec) request ;;
          ret (Some result)
      | None => result <- default_strategy request ;; ret (Some result)
      end
    else if orderby_is_desc "timestamp" (query req) && (remaining_offset <? 1000)
    then Legacy_time_split E R cfg fuel request
    else result <- default_strategy request ;; ret (Some result)
  else result <- default_strategy request ;; ret (Some result).

(** ** Schema migrations of the events table

    [events_migrations] of [snuba/datasets/events.py]; the schema maps
    column names to their descriptions. *)

Definition events_migrations {V} (clickhouse_table : string)
    (current_schema : gmap string V) : list string :=
  let present name := bool_decide (is_Some (current_schema !! name)) in
  let alter rest := String.append "ALTER TABLE "
                      (String.append clickhouse_table rest) in
  (if negb (present "group_id")
   then [alter " ADD COLUMN group_id UInt64 DEFAULT 0"] else [])
  ++ (if present "device_model"
      then [alter " DROP COLUMN device_model"] else [])
  ++ (if negb (present "sdk_integrations")
      then [alter " ADD COLUMN sdk_integrations Array(String)"] else [])
  ++ (if negb (present "modules.name")
      then [alter " ADD COLUMN modules Nested(name String, version String)"]
      else [])
  ++ (if negb (present "culprit")
      then [alter " ADD COLUMN culprit Nullable(String)"] else [])
  ++ (if negb (present "search_message")
      then [alter " ADD COLUMN search_message Nullable(String)"] else [])
  ++ (if negb (present "title")
      then [alter " ADD COLUMN title Nullable(String)"] else [])
  ++ (if negb (present "location")
      then [alter " ADD COLUMN location Nullable(String)"] else [])
  ++ (if negb (present "_tags_flattened")
      then [alter " ADD COLUMN _tags_flattened String DEFAULT '' AFTER tags"]
      else []).

(** The columns whose absence, and the column whose presence, calls for a
    migration. *)
Definition events_expected_columns : list string :=
  ["group_id"; "sdk_integrations"; "modules.name"; "culprit";
   "search_message"; "title"; "location"; "_tags_flattened"].

(** ** Conditions of the sessions entity

    [SessionsEntity.process_condition] of
    [snuba/datasets/entities/sessions.py]. A literal is what the request
    carried or, once parsed, a datetime. *)

Inductive ConditionValue :=
  | Unparsed (lit : Literal)
  | Datetime (t : Z).

Definition time_parse_columns : list string := ["started"; "received"].

Definition comparison_operators : list string :=
  [">"; "<"; ">="; "<="; "="; "!="].

Definition process_condition (E : Env)
    (condition : string * string * ConditionValue)
    : option (string * string * ConditionValue) :=
  let '(lhs, op, lit) := condition in
  match lit with
  | Unparsed (LScalar (SStr s)) =>
      if bool_decide (lhs ∈ time_parse_columns)
         && bool_decide (op ∈ comparison_operators)
      then
        match parse_datetime E (LScalar (SStr s)) 1 with
        | Some t => Some (lhs, op, Datetime t)
        | None => None
        end
      else Some (lhs, op, lit)
  | _ => Some (lhs, op, lit)
  end.

(** ** Runners and windows *)

(** The runner never returns more rows than the limit of the request. *)
Definition honours_limit (R : Runner) : Prop :=
  forall s r l, limit (query r) = Some l ->
                len (data (run R s r).2) <= Z.max 0 l.

(** Windows [(lo, hi)] that follow one another into the past from [hi]. *)
Fixpoint contiguous (hi : Z) (windows : list (Z * Z)) : Prop :=
  match windows with
  | [] => True
  | (lo, hi') :: rest => hi' = hi /\ lo < hi' /\ contiguous lo rest
  end.

(** The call [c] carried the sub-request of the window [win]. *)
Definition probes (E : Env) (timestamp_col : string) (limit : Z)
    (original : Request) (c : nat * Request) (win : Z * Z) : Prop :=
  exists v, c.2 = TimeSplit_sub_request E timestamp_col limit v original
            /\ split_start v = win.1 /\ split_end v = win.2.

(** The lower end of the last window, [hi] when there is none. *)
Definition window_floor (hi : Z) (windows : list (Z * Z)) : Z :=
  default hi (fst <$> last windows).

(** The runner called on the given requests one after the other, from the
    state [s]: the state it ends in and all the rows it returned, in
    order. *)
Fixpoint replay (R : Runner) (s : rstate R) (reqs : list Request)
    : rstate R * list Row :=
  match reqs with
  | [] => (s, [])
  | r :: rest =>
      let '(s', _, result) := run R s r in
      let '(s'', rows) := replay R s' rest in
      (s'', data result ++ rows)
  end.

(** What the loop has received and kept: the calls made since [w0], the
    rows they returned, and the accumulated rows as those rows minus the
    offset. *)
Definition received {R : Runner} (O : Z) (w0 : World (rstate R))
    (v : LoopVars) (w : World (rstate R))
    (new : list (nat * Request)) (all : list Row) : Prop :=
  calls w = calls w0 ++ new
  /\ replay R (runner_state w0) (map snd new) = (runner_state w, all)
  /\ default [] (accumulated w v) = skipn (Z.to_nat O) all
  /\ remaining_offset v = Z.max 0 (O - len all)
  /\ total_results v = len (default [] (accumulated w v)).

(** ** The time-split precondition *)

Lemma identify_condition_spec c field operand :
  _identify_condition c field operand = true <->
  exists lit, c = Simple (Col field) operand lit.
Proof.
  split.
  - unfold _identify_condition.
    destruct c as [[f|e] op lit|alts]; simpl; try discriminate.
    intros H. apply andb_true_iff in H as [Hf Ho].
    apply String.eqb_eq in Hf, Ho. subst. by exists lit.
  - intros [lit ->]. unfold _identify_condition. simpl.
    by rewrite !String.eqb_refl.
Qed.

Lemma existsb_identify conds field operand :
  existsb (fun c => _identify_condition c field operand) conds = true <->
  exists lit, In (Simple (Col field) operand lit) conds.
Proof.
  rewrite existsb_exists. split.
  - intros (c & Hin & Hc). apply identify_condition_spec in Hc as [lit ->]. eauto.
  - intros (lit & Hin). eexists; split; [exact Hin|].
    apply identify_condition_spec. eauto.
Qed.

(** C7: the time-split strategy accepts a request exactly when the
    [use_split] flag is on, the limit is positive, there is no group-by, the
    first order-by key is the timestamp column descending, the conditions
    contain a [>=] and a [<] comparison on the timestamp column, and the
    offset is below 1000. *)
Theorem time_split_precondition (cfg : Config) (ts : string) (request : Request) :
  TimeSplit_can_execute cfg ts request = true <->
  ( 0 < use_split cfg
    /\ (exists l, limit (query request) = Some l /\ 0 < l)
    /\ (groupby (query request) = None \/ groupby (query request) = Some [])
    /\ (exists rest, to_list (orderby (query request))
                     = Some (OKey (String.append "-" ts)) :: rest)
    /\ (exists lit, In (Simple (Col ts) ">=" lit) (get_conditions (query request)))
    /\ (exists lit, In (Simple (Col ts) "<" lit) (get_conditions (query request)))
    /\ offset (query request) < 1000 ).
Proof.
  unfold TimeSplit_can_execute, _is_query_splittable, orderby_is_desc.
  rewrite !andb_true_iff, !existsb_identify, negb_true_iff, !Z.ltb_lt.
  set (q := query request).
  split.
  - intros [[[[[[Hu Hl] Hg] Hf] Ht] Ho] Hoff].
    repeat split; try assumption.
    + destruct (limit q) as [l|]; [|lia].
      exists l. split; [done|]. destruct (l =? 0) eqn:E; lia.
    + destruct (groupby q) as [[|? ?]|]; auto; discriminate.
    + destruct (to_list (orderby q)) as [|[[s|p]|] rest]; simpl in Ho;
        try discriminate.
      apply String.eqb_eq in Ho as ->. by exists rest.
  - intros (Hu & (l & Hl & Hpos) & Hg & (rest & Ho) & Hf & Ht & Hoff).
    repeat split; try assumption.
    + rewrite Hl. destruct (l =? 0) eqn:E; [apply Z.eqb_eq in E|]; lia.
    + destruct Hg as [-> | ->]; reflexivity.
    + rewrite Ho. simpl. apply String.eqb_refl.
Qed.

(** ** Store operations *)

Section Engine.
Context (E : Env) (R : Runner).
Local Abbreviation St := (rstate R).

Lemma with_query_compose f g r :
  with_query f (with_query g r) = with_query (fun q => f (g q)) r.
Proof. reflexivity. Qed.

Lemma TimeSplit_prepare_run ts request limit v (w : World St) original :
  requests w !! request = Some original ->
  TimeSplit_prepare E ts request limit v w =
    (Ok (fresh (dom (requests w))),
     mkWorld (<[fresh (dom (requests w)) :=
                 TimeSplit_sub_request E ts limit v original]> (requests w))
             (results w) (runner_state w) (calls w)).
Proof.
  intros Hreq.
  unfold TimeSplit_prepare, deepcopy, modify_query, modify_request, bind, ret.
  rewrite Hreq. simpl.
  repeat (rewrite lookup_insert_eq; simpl; rewrite insert_insert_eq).
  reflexivity.
Qed.

Lemma get_data_run {S} (w : World S) l r :
  results w !! l = Some r -> get_data l w = (Ok (data r), w).
Proof. intros H. unfold get_data. by rewrite H. Qed.

Lemma set_data_run {S} (w : World S) l r rows :
  results w !! l = Some r ->
  set_data l rows w =
    (Ok tt, mkWorld (requests w) (<[l := mkResult rows (extra r)]> (results w))
                    (runner_state w) (calls w)).
Proof. intros H. unfold set_data. by rewrite H. Qed.

Lemma call_runner_run (w : World St) l r s' r' result :
  requests w !! l = Some r ->
  run R (runner_state w) r = (s', r', result) ->
  call_runner R l w =
    (Ok (fresh (dom (results w))),
     mkWorld (<[l := r']> (requests w))
             (<[fresh (dom (results w)) := result]> (results w))
             s' (calls w ++ [(l, r)])).
Proof. intros H Hrun. unfold call_runner. by rewrite H, Hrun. Qed.

Lemma fresh_result_unused {S} (w : World S) :
  results w !! fresh (dom (results w)) = None.
Proof. apply not_elem_of_dom, is_fresh. Qed.

Lemma fresh_request_unused {S} (w : World S) :
  requests w !! fresh (dom (requests w)) = None.
Proof. apply not_elem_of_dom, is_fresh. Qed.

Lemma merge_result_run {S} (w : World S) (before : option loc) result r :
  results w !! result = Some r ->
  match before with
  | Some o => is_Some (results w !! o) /\ o <> result
  | None => True
  end ->
  let o := default result before in
  let rows_before := match before with
                     | Some o' => data <$> results w !! o'
                     | None => None
                     end in
  exists w',
    merge_result before result w = (Ok o, w')
    /\ same_frame w w'
    /\ data <$> results w' !! o = Some (merged_rows rows_before (data r))
    /\ (o <> result -> results w' !! result = Some r).
Proof.
  intros Hr Hb o rows_before. unfold merge_result.
  destruct before as [o'|]; simpl in *.
  - destruct Hb as [[ro Ho] Hne]. subst rows_before. rewrite Ho. simpl.
    unfold bind. rewrite (get_data_run _ _ _ Hr), (get_data_run _ _ _ Ho).
    rewrite (set_data_run _ _ _ _ Ho). unfold ret.
    eexists. split; [reflexivity|]. simpl.
    split; [done|]. rewrite lookup_insert_eq. split; [done|].
    intros _. by rewrite lookup_insert_ne.
  - exists w. unfold ret. split; [done|]. split; [done|].
    subst o. rewrite Hr. split; [done|]. congruence.
Qed.

Lemma trim_offset_run {S} (w : World S) overall r remaining :
  results w !! overall = Some r ->
  let to_trim := trim_count remaining (data r) in
  exists w',
    trim_offset overall remaining w = (Ok (remaining - to_trim), w')
    /\ same_frame w w'
    /\ data <$> results w' !! overall
       = Some (skipn (Z.to_nat to_trim) (data r))
    /\ (forall k, k <> overall -> results w' !! k = results w !! k).
Proof.
  intros Hr to_trim. unfold trim_offset, bind.
  rewrite (get_data_run _ _ _ Hr). subst to_trim. unfold trim_count.
  destruct ((0 <? remaining) && (0 <? len (data r))).
  - rewrite (set_data_run _ _ _ _ Hr). unfold ret.
    eexists. split; [reflexivity|]. simpl. split; [done|].
    rewrite lookup_insert_eq. split; [done|].
    intros k Hk. by rewrite lookup_insert_ne.
  - exists w. unfold ret. rewrite Z.sub_0_r. split; [done|]. split; [done|].
    rewrite Hr. simpl. done.
Qed.

Lemma advance_run {S} (w : World S) limit from_date v overall result ro rr rem' :
  results w !! overall = Some ro ->
  results w !! result = Some rr ->
  advance limit from_date v overall result rem' w =
    (Ok (let total := len (data ro) in
         if total <? limit then
           let step' :=
             if len (data rr) =? 0 then step v * STEP_GROWTH
             else step v * ceil_div (limit - total) (len (data rr)) in
           mkVars (Some overall) (split_start v)
                  (next_split_start (split_start v) step' from_date)
                  total rem' step'
         else mkVars (Some overall) (split_end v) (split_start v)
                     total rem' (step v)), w).
Proof.
  intros Ho Hr. unfold advance, bind. rewrite (get_data_run _ _ _ Ho).
  simpl. destruct (len (data ro) <? limit); [|done].
  by rewrite (get_data_run _ _ _ Hr).
Qed.

(** One iteration, once the sub-request has been built: the runner is
    called on it, the rows are merged and trimmed in the overall result
    object, and the variables move as [step_vars] says. *)
Lemma time_split_body_run prepare limit from_date v (w w1 : World St)
    l sub s' sub' result :
  prepare v w = (Ok l, w1) ->
  requests w1 !! l = Some sub ->
  results w1 = results w ->
  runner_state w1 = runner_state w ->
  overall_valid w v ->
  run R (runner_state w) sub = (s', sub', result) ->
  let o := default (fresh (dom (results w))) (overall_result v) in
  let v' := step_vars limit from_date v o (accumulated w v) (data result) in
  exists w',
    time_split_body R prepare limit from_date v w = (Ok v', w')
    /\ requests w' = <[l := sub']> (requests w1)
    /\ runner_state w' = s'
    /\ calls w' = calls w1 ++ [(l, sub)]
    /\ data <$> results w' !! o
       = Some (trimmed_rows v (accumulated w v) (data result))
    /\ overall_result v' = Some o.
Proof.
  intros Hprep Hl Hres Hst Hvalid Hrun o v'.
  unfold time_split_body, bind at 1. rewrite Hprep.
  rewrite <- Hst in Hrun.
  unfold bind at 1. rewrite (call_runner_run _ _ _ _ _ _ Hl Hrun).
  rewrite Hres.
  set (rl := fresh (dom (results w))) in *.
  assert (Hfresh : results w !! rl = None) by apply fresh_result_unused.
  set (w2 := mkWorld _ _ _ _).
  assert (Hrl : results w2 !! rl = Some result) by apply lookup_insert_eq.
  destruct (merge_result_run w2 (overall_result v) rl result Hrl)
    as (w3 & Hm & (Hq3 & Hs3 & Hc3) & Hd3 & Hk3).
  { unfold overall_valid in Hvalid. destruct (overall_result v) as [o'|]; [|done].
    assert (o' <> rl) by (intros ->; rewrite Hfresh in Hvalid; by destruct Hvalid).
    split; [|done]. simpl. by rewrite lookup_insert_ne. }
  unfold bind at 1. rewrite Hm. fold o in Hd3, Hk3. fold o.
  assert (Hbefore : match overall_result v with
                    | Some o' => data <$> results w2 !! o'
                    | None => None
                    end = accumulated w v).
  { unfold accumulated, overall_valid in *.
    destruct (overall_result v) as [o'|]; [|done].
    assert (o' <> rl) by (intros ->; rewrite Hfresh in Hvalid; by destruct Hvalid).
    simpl. by rewrite lookup_insert_ne. }
  rewrite Hbefore in Hd3.
  destruct (results w3 !! o) as [ro3|] eqn:Ho3; [|discriminate].
  simpl in Hd3. injection Hd3 as Hd3.
  destruct (trim_offset_run w3 o ro3 (remaining_offset v) Ho3)
    as (w4 & Ht & (Hq4 & Hs4 & Hc4) & Hd4 & Hk4).
  unfold bind at 1. rewrite Ht.
  destruct (results w4 !! o) as [ro4|] eqn:Ho4; [|discriminate].
  simpl in Hd4. injection Hd4 as Hd4. rewrite Hd3 in Hd4.
  assert (Hr4 : exists rr, results w4 !! rl = Some rr
                           /\ len (data rr)
                              = estimate_base v (accumulated w v) (data result)).
  { unfold estimate_base, accumulated, overall_valid in *. subst o.
    destruct (overall_result v) as [o'|] eqn:Hov; simpl in *.
    - assert (o' <> rl) by (intros ->; rewrite Hfresh in Hvalid; by destruct Hvalid).
      exists result. rewrite Hk4 by done. rewrite Hk3 by done.
      destruct (results w !! o'); [done|]. by destruct Hvalid.
    - exists ro4. split; [done|]. by rewrite Hd4. }
  destruct Hr4 as (rr & Hrr & Hlen).
  rewrite (advance_run w4 limit from_date v o rl ro4 rr _ Ho4 Hrr).
  exists w4. rewrite Hd3.
  split.
  { f_equal. subst v'. unfold step_vars. fold (trimmed_rows v (accumulated w v) (data result)).
    rewrite Hd4, Hlen. reflexivity. }
  split; [by rewrite Hq4, Hq3|].
  split; [by rewrite Hs4, Hs3|].
  split; [by rewrite Hc4, Hc3|].
  split; [by rewrite Ho4; simpl; rewrite Hd4|].
  subst v'. unfold step_vars. by destruct (_ <? limit).
Qed.

(** *** Window arithmetic *)

Lemma ceil_div_pos a b : 0 < a -> 0 < b -> 1 <= ceil_div a b.
Proof.
  intros Ha Hb. unfold ceil_div.
  apply Z.div_le_lower_bound; lia.
Qed.

Lemma len_nonneg {A} (l : list A) : 0 <= len l.
Proof. unfold len. lia. Qed.

Lemma datetime_minus_Some dt s d :
  datetime_minus dt s = Some d -> d = dt - s * 1000000 /\ 0 <= d.
Proof.
  unfold datetime_minus, timedelta, datetime_in_range.
  destruct (Z.abs (s / 86400) <=? 999999999); [|discriminate].
  destruct (0 <=? dt - s * 1000000) eqn:H0; simpl; [|discriminate].
  destruct (dt - s * 1000000 <=? datetime_max); [|discriminate].
  intros [= <-]. split; [done|]. by apply Z.leb_le.
Qed.

Lemma next_split_start_bounds split_end step from_date :
  0 < step ->
  from_date <= next_split_start split_end step from_date
  /\ next_split_start split_end step from_date
     <= Z.max (split_end - step * 1000000) from_date.
Proof.
  intros Hs. unfold next_split_start.
  destruct (datetime_minus split_end step) as [d|] eqn:Hd.
  - apply datetime_minus_Some in Hd as [-> _]. lia.
  - lia.
Qed.

(** The [except OverflowError] branch yields what the clamped subtraction
    would have yielded without the overflow. *)
Lemma next_split_start_clamp split_end step from_date :
  0 <= from_date -> 0 < step -> split_end <= datetime_max ->
  next_split_start split_end step from_date
  = Z.max (split_end - step * 1000000) from_date.
Proof.
  intros Hfrom Hstep Hend.
  unfold next_split_start, datetime_minus, timedelta, datetime_in_range.
  unfold datetime_max in *.
  destruct (Z.abs (step / 86400) <=? 999999999) eqn:Htd.
  - destruct (0 <=? split_end - step * 1000000) eqn:Hlo; simpl.
    + destruct (split_end - step * 1000000 <=? 315537897599999999) eqn:Hhi;
        [done|]. apply Z.leb_gt in Hhi. lia.
    + apply Z.leb_gt in Hlo. lia.
  - apply Z.leb_gt in Htd.
    assert (0 <= step / 86400) by (apply Z.div_pos; lia).
    assert (999999999 < step / 86400) by lia.
    assert (86400 * 1000000000 <= step).
    { pose proof (Z.mul_div_le step 86400). lia. }
    lia.
Qed.

Lemma step_vars_step limit from_date step0 v o before new_rows :
  0 < step0 ->
  well_stepped step0 from_date v ->
  well_stepped step0 from_date (step_vars limit from_date v o before new_rows).
Proof.
  intros Hpos [Hstep Hfrom]. unfold step_vars.
  destruct (len (trimmed_rows v before new_rows) <? limit) eqn:Hlt;
    [|by split].
  apply Z.ltb_lt in Hlt.
  set (base := estimate_base v before new_rows).
  assert (0 <= base).
  { unfold base, estimate_base. destruct before; apply len_nonneg. }
  set (step' := if base =? 0 then _ else _).
  assert (Hstep' : step v <= step').
  { unfold step', STEP_GROWTH. destruct (base =? 0) eqn:Hb; [lia|].
    apply Z.eqb_neq in Hb.
    pose proof (ceil_div_pos (limit - len (trimmed_rows v before new_rows)) base).
    nia. }
  split; simpl; [lia|].
  apply next_split_start_bounds. lia.
Qed.

Lemma step_vars_measure limit from_date step0 v o before new_rows :
  0 < step0 ->
  well_stepped step0 from_date v ->
  loop_condition limit v = true ->
  0 <= loop_measure limit from_date (step0 * 1000000)
         (step_vars limit from_date v o before new_rows)
    < loop_measure limit from_date (step0 * 1000000) v.
Proof.
  intros Hpos [Hstep Hfrom] Hcond.
  pose proof (step_vars_step limit from_date step0 v o before new_rows Hpos
                (conj Hstep Hfrom)) as [Hstep' Hfrom'].
  revert Hstep' Hfrom'.
  assert (Hmv : loop_measure limit from_date (step0 * 1000000) v
                = (split_start v - from_date + step0 * 1000000 - 1)
                  / (step0 * 1000000) + 1)
    by (unfold loop_measure; by rewrite Hcond).
  rewrite Hmv. clear Hmv.
  unfold loop_condition in Hcond. apply andb_true_iff in Hcond as [Hw Ht].
  apply Z.ltb_lt in Hw, Ht.
  set (u := step0 * 1000000). assert (0 < u) by (unfold u; lia).
  assert (Hm : 0 <= (split_start v - from_date + u - 1) / u).
  { apply Z.div_pos; lia. }
  unfold step_vars.
  destruct (len (trimmed_rows v before new_rows) <? limit) eqn:Hlt.
  - set (step' := if _ =? 0 then _ else _).
    intros Hstep' Hfrom'. simpl in Hstep', Hfrom'.
    unfold loop_measure, loop_condition. simpl.
    destruct (next_split_start_bounds (split_start v) step' from_date) as [Hlo Hhi];
      [lia|].
    destruct (next_split_start (split_start v) step' from_date <? split_start v)
      eqn:Hc; simpl; [|lia].
    apply Z.ltb_lt in Hc. rewrite Hlt.
    set (ns := next_split_start (split_start v) step' from_date) in *.
    assert (0 <= (ns - from_date + u - 1) / u) by (apply Z.div_pos; lia).
    split; [lia|].
    assert (ns = from_date \/ ns - from_date + u <= split_start v - from_date)
      as [-> | Hle] by (unfold u in *; lia).
    + replace (from_date - from_date + u - 1) with (u - 1) by lia.
      rewrite (Z.div_small (u - 1) u) by lia.
      assert (1 <= (split_start v - from_date + u - 1) / u)
        by (apply Z.div_le_lower_bound; lia).
      lia.
    + assert ((ns - from_date + u - 1) / u <= (split_start v - from_date - 1) / u)
        by (apply Z.div_le_mono; lia).
      replace (split_start v - from_date + u - 1)
        with (split_start v - from_date - 1 + 1 * u) by lia.
      rewrite Z.div_add by lia. lia.
  - intros _ _. unfold loop_measure, loop_condition. simpl.
    rewrite Hlt, andb_false_r. lia.
Qed.

(** *** The loop *)

(** An invariant that every iteration re-establishes while a measure
    decreases holds when the loop exits, and the loop does exit. *)
Lemma time_split_loop_run prepare limit from_date
    (I : LoopVars -> World St -> Prop) (mu : LoopVars -> Z) :
  (forall v w, I v w -> loop_condition limit v = true ->
     exists v' w',
       time_split_body R prepare limit from_date v w = (Ok v', w')
       /\ I v' w' /\ 0 <= mu v' < mu v) ->
  forall fuel v w,
    mu v <= Z.of_nat fuel -> I v w ->
    exists v' w',
      time_split_loop R prepare limit from_date fuel v w = (Ok v', w')
      /\ I v' w' /\ loop_condition limit v' = false.
Proof.
  intros Hstep fuel. induction fuel as [|fuel IH]; intros v w Hmu HI.
  - simpl. destruct (loop_condition limit v) eqn:Hc.
    + destruct (Hstep v w HI Hc) as (v' & w' & _ & _ & Hlt). lia.
    + exists v, w. by unfold ret.
  - simpl. destruct (loop_condition limit v) eqn:Hc.
    + destruct (Hstep v w HI Hc) as (v' & w' & Hb & HI' & Hlt).
      unfold bind. rewrite Hb. apply IH; [lia|done].
    + exists v, w. by unfold ret.
Qed.

(** One iteration of the pluggable strategy, in full. *)
Lemma TimeSplit_body_run ts request original limit from_date v (w : World St) :
  requests w !! request = Some original ->
  overall_valid w v ->
  let sub := TimeSplit_sub_request E ts limit v original in
  let l := fresh (dom (requests w)) in
  let out := run R (runner_state w) sub in
  let o := default (fresh (dom (results w))) (overall_result v) in
  let v' := step_vars limit from_date v o (accumulated w v) (data out.2) in
  exists w',
    time_split_body R (TimeSplit_prepare E ts request limit) limit from_date v w
      = (Ok v', w')
    /\ requests w' !! request = Some original
    /\ overall_valid w' v'
    /\ l <> request
    /\ calls w' = calls w ++ [(l, sub)]
    /\ runner_state w' = out.1.1
    /\ (forall k, k <> l -> requests w' !! k = requests w !! k)
    /\ accumulated w' v' = Some (trimmed_rows v (accumulated w v) (data out.2)).
Proof.
  intros Hreq Hvalid sub l. cbv zeta.
  destruct (run R (runner_state w) sub) as [[s' sub'] result] eqn:Hout.
  cbn [fst snd].
  set (o := default (fresh (dom (results w))) (overall_result v)).
  set (v' := step_vars limit from_date v o (accumulated w v) (data result)).
  pose proof (TimeSplit_prepare_run ts request limit v w original Hreq) as Hprep.
  fold l sub in Hprep.
  set (w1 := mkWorld _ _ _ _) in Hprep.
  assert (Hl : requests w1 !! l = Some sub) by apply lookup_insert_eq.
  assert (Hne : l <> request).
  { intros Heq. pose proof (fresh_request_unused w) as Hf.
    unfold l in Heq. rewrite Heq in Hf. congruence. }
  destruct (time_split_body_run (TimeSplit_prepare E ts request limit)
              limit from_date v w w1 l sub s' sub' result
              Hprep Hl eq_refl eq_refl Hvalid Hout)
    as (w' & Hb & Hq & Hs & Hc & Hd & Ho).
  exists w'. simpl. fold o in Hd, Ho. fold v' in Ho.
  split; [exact Hb|].
  assert (Hframe : forall k, k <> l -> requests w' !! k = requests w !! k).
  { intros k Hk. rewrite Hq. rewrite lookup_insert_ne by done.
    unfold w1. simpl. by rewrite lookup_insert_ne. }
  split; [by rewrite Hframe|].
  split.
  { unfold overall_valid. rewrite Ho.
    destruct (results w' !! o); [done|discriminate]. }
  split; [done|]. split; [done|]. split; [done|]. split; [done|].
  unfold accumulated at 1. by rewrite Ho.
Qed.

Lemma TimeSplit_body_step ts request original limit from_date step0 v
    (w : World St) :
  0 < step0 ->
  TimeSplit_inv request original step0 from_date v w ->
  loop_condition limit v = true ->
  let sub := TimeSplit_sub_request E ts limit v original in
  let l := fresh (dom (requests w)) in
  let out := run R (runner_state w) sub in
  let o := default (fresh (dom (results w))) (overall_result v) in
  let v' := step_vars limit from_date v o (accumulated w v) (data out.2) in
  exists w',
    time_split_body R (TimeSplit_prepare E ts request limit) limit from_date v w
      = (Ok v', w')
    /\ TimeSplit_inv request original step0 from_date v' w'
    /\ 0 <= loop_measure limit from_date (step0 * 1000000) v'
         < loop_measure limit from_date (step0 * 1000000) v
    /\ l <> request
    /\ calls w' = calls w ++ [(l, sub)]
    /\ runner_state w' = out.1.1
    /\ (forall k, k <> l -> requests w' !! k = requests w !! k)
    /\ accumulated w' v' = Some (trimmed_rows v (accumulated w v) (data out.2)).
Proof.
  intros Hpos (Hreq & Hvalid & Hws) Hcond.
  destruct (TimeSplit_body_run ts request original limit from_date v w Hreq Hvalid)
    as (w' & Hb & Hreq' & Hvalid' & Hne & Hc & Hs & Hframe & Hacc).
  cbv zeta. exists w'.
  split; [exact Hb|].
  split; [split; [done|]; split; [done|]; by apply step_vars_step|].
  split; [by apply step_vars_measure|].
  done.
Qed.

Lemma loop_measure_initial limit from_date to_date step0 o start0 total rem :
  0 < step0 -> from_date <= start0 -> start0 <= to_date ->
  loop_measure limit from_date (step0 * 1000000)
    (mkVars o to_date start0 total rem step0)
  <= Z.of_nat (iteration_bound from_date to_date step0).
Proof.
  intros Hpos Hlo Hhi. unfold loop_measure, iteration_bound.
  set (u := step0 * 1000000). assert (0 < u) by (unfold u; lia).
  assert (0 <= (to_date - from_date) / u) by (apply Z.div_pos; lia).
  destruct (loop_condition _ _); [|lia].
  simpl.
  assert ((start0 - from_date + u - 1) / u <= (to_date - from_date + 1 * u) / u)
    by (apply Z.div_le_mono; lia).
  rewrite Z.div_add in * by lia. lia.
Qed.

Lemma trimmed_rows_empty v before :
  before = None \/ before = Some [] -> trimmed_rows v before [] = [].
Proof.
  intros [-> | ->]; unfold trimmed_rows, merged_rows; simpl; apply skipn_nil.
Qed.

(** C6: for [from_date < to_date], a positive step and a positive limit,
    the loop of the time split ends after at most [iteration_bound]
    iterations, whatever the runner does; when every probe comes back
    empty it ends with the window collapsed onto [from_date]. *)
Theorem time_split_loop_terminates (ts : string) (request : loc)
    (original : Request) (limit from_date to_date start0 step0 offset0 : Z)
    (w : World St) (fuel : nat) :
  from_date < to_date -> 0 < step0 -> 0 < limit ->
  from_date <= start0 < to_date ->
  requests w !! request = Some original ->
  (iteration_bound from_date to_date step0 <= fuel)%nat ->
  exists v' w',
    time_split_loop R (TimeSplit_prepare E ts request limit) limit from_date
      fuel (mkVars None to_date start0 0 offset0 step0) w = (Ok v', w')
    /\ loop_condition limit v' = false
    /\ (length (calls w') <= length (calls w)
                             + iteration_bound from_date to_date step0)%nat
    /\ ((forall s r, data (run R s r).2 = []) ->
        split_start v' = from_date /\ split_end v' = from_date).
Proof.
  intros Hrange Hpos Hlimit Hstart Hreq Hfuel.
  set (v0 := mkVars None to_date start0 0 offset0 step0).
  set (mu := loop_measure limit from_date (step0 * 1000000)).
  set (I := fun (v : LoopVars) (w' : World St) =>
              TimeSplit_inv request original step0 from_date v w'
              /\ Z.of_nat (length (calls w')) + mu v
                 <= Z.of_nat (length (calls w)) + mu v0
              /\ ((forall s r, data (run R s r).2 = []) ->
                  total_results v = 0
                  /\ (accumulated w' v = None \/ accumulated w' v = Some [])
                  /\ (split_start v < split_end v
                      \/ (split_start v = from_date /\ split_end v = from_date)))).
  assert (Hmu0 : mu v0 <= Z.of_nat (iteration_bound from_date to_date step0)).
  { apply loop_measure_initial; lia. }
  destruct (time_split_loop_run (TimeSplit_prepare E ts request limit)
              limit from_date I mu) with (fuel := fuel) (v := v0) (w := w)
    as (v' & w' & Hloop & (Hinv & Hcalls & Hempty) & Hexit).
  - intros v w1 (Hinv & Hcalls & Hempty) Hcond.
    destruct (TimeSplit_body_step ts request original limit from_date step0
                v w1 Hpos Hinv Hcond)
      as (w2 & Hb & Hinv' & Hlt & _ & Hc & _ & _ & Hacc).
    eexists _, w2. split; [exact Hb|]. split; [|exact Hlt].
    split; [exact Hinv'|]. split.
    { rewrite Hc, length_app. simpl. fold mu in Hlt. lia. }
    intros Hnone. destruct (Hempty Hnone) as (Ht & Hb0 & Hwin).
    rewrite Hacc, Hnone.
    rewrite (trimmed_rows_empty v _ Hb0).
    unfold step_vars. rewrite (trimmed_rows_empty v _ Hb0).
    change (len []) with 0.
    destruct (0 <? limit) eqn:Hl; [|apply Z.ltb_ge in Hl; lia].
    simpl. split; [done|]. split; [by right|].
    destruct Hinv as (_ & _ & Hstep & Hfrom).
    set (step' := if _ =? 0 then _ else _).
    assert (Hstep' : 0 < step').
    { unfold step', STEP_GROWTH.
      destruct (estimate_base v (accumulated w1 v) [] =? 0) eqn:Hb1; [lia|].
      unfold estimate_base in Hb1.
      destruct Hb0 as [Hb0 | Hb0]; rewrite Hb0 in Hb1; simpl in Hb1;
        [rewrite (trimmed_rows_empty v None) in Hb1 by auto|]; discriminate. }
    destruct (next_split_start_bounds (split_start v) step' from_date Hstep').
    lia.
  - lia.
  - split; [|split].
    + split; [done|]. split; [done|]. split; simpl; lia.
    + lia.
    + intros _. simpl. split; [done|]. split; [by left|]. left. lia.
  - exists v', w'. split; [exact Hloop|]. split; [exact Hexit|].
    split.
    { assert (0 <= mu v').
      { unfold mu, loop_measure. rewrite Hexit. lia. }
      lia. }
    intros Hnone. destruct (Hempty Hnone) as (Ht & _ & Hwin).
    unfold loop_condition in Hexit. rewrite Ht in Hexit.
    apply andb_false_iff in Hexit as [Hexit | Hexit]; apply Z.ltb_ge in Hexit; lia.
Qed.

(** *** The sub-request of an iteration *)

Lemma identify_replaced field operand lit field' operand' :
  _identify_condition (Simple (Col field) operand lit) field' operand'
  = String.eqb field field' && String.eqb operand operand'.
Proof. reflexivity. Qed.

Lemma replace_window_conditions ts lo hi conds :
  map (fun cond => if negb (_identify_condition cond ts "<") then cond
                   else Simple (Col ts) "<" hi)
      (map (fun cond => if negb (_identify_condition cond ts ">=") then cond
                        else Simple (Col ts) ">=" lo) conds)
  = map (fun c => if _identify_condition c ts ">=" then Simple (Col ts) ">=" lo
                  else if _identify_condition c ts "<" then Simple (Col ts) "<" hi
                  else c) conds.
Proof.
  rewrite map_map. apply map_ext. intros c.
  destruct (_identify_condition c ts ">=") eqn:Hge; simpl.
  - rewrite identify_replaced. simpl. by rewrite andb_false_r.
  - by destruct (_identify_condition c ts "<").
Qed.

(** C8: the request an iteration hands to the runner is a new object, a
    copy of the caller's request in which the timestamp [>=] and [<]
    conditions carry [split_start] and [split_end], the offset is 0 and
    the limit is the original limit minus the rows collected so far plus
    the offset still to skip; nothing else differs. *)
Theorem time_split_sub_request (ts : string) (request : loc)
    (original : Request) (query_limit from_date : Z) (v : LoopVars)
    (w : World St) :
  requests w !! request = Some original ->
  overall_valid w v ->
  exists v' w' l sub,
    time_split_body R (TimeSplit_prepare E ts request query_limit)
      query_limit from_date v w = (Ok v', w')
    /\ calls w' = calls w ++ [(l, sub)]
    /\ l <> request /\ requests w !! l = None
    /\ get_conditions (query sub)
       = map (fun c =>
                if _identify_condition c ts ">="
                then Simple (Col ts) ">=" (iso_literal E (split_start v))
                else if _identify_condition c ts "<"
                then Simple (Col ts) "<" (iso_literal E (split_end v))
                else c)
             (get_conditions (query original))
    /\ offset (query sub) = 0
    /\ limit (query sub)
       = Some (query_limit - total_results v + remaining_offset v)
    /\ selected_columns (query sub) = selected_columns (query original)
    /\ aggregations (query sub) = aggregations (query original)
    /\ groupby (query sub) = groupby (query original)
    /\ orderby (query sub) = orderby (query original)
    /\ extensions sub = extensions original.
Proof.
  intros Hreq Hvalid.
  destruct (TimeSplit_body_run ts request original query_limit from_date v w
              Hreq Hvalid)
    as (w' & Hb & _ & _ & Hne & Hc & _).
  eexists _, w', _, _. split; [exact Hb|]. split; [exact Hc|].
  split; [exact Hne|]. split; [apply fresh_request_unused|].
  split; [|by repeat split].
  unfold TimeSplit_sub_request, _replace_condition. simpl.
  unfold get_conditions at 1 2. simpl.
  apply replace_window_conditions.
Qed.

(** *** The caller's request object *)

Lemma original_kept_refl request original (w : World St) :
  requests w !! request = Some original -> original_kept request original w w.
Proof.
  intros H. split; [done|]. split; [done|].
  exists []. split; [by rewrite app_nil_r|]. constructor.
Qed.

Lemma TimeSplit_loop_frame ts request original lim from_date fuel :
  forall v (w : World St) out w',
    requests w !! request = Some original ->
    overall_valid w v ->
    time_split_loop R (TimeSplit_prepare E ts request lim) lim from_date
      fuel v w = (out, w') ->
    original_kept request original w w'.
Proof.
  induction fuel as [|fuel IH]; intros v w out w' Hreq Hvalid Hloop;
    simpl in Hloop; destruct (loop_condition lim v).
  - injection Hloop as _ <-. by apply original_kept_refl.
  - injection Hloop as _ <-. by apply original_kept_refl.
  - destruct (TimeSplit_body_run ts request original lim from_date v w
                Hreq Hvalid)
      as (w1 & Hb & Hreq1 & Hvalid1 & Hne & Hc & _ & Hframe & _).
    unfold bind in Hloop. rewrite Hb in Hloop.
    destruct (IH _ _ _ _ Hreq1 Hvalid1 Hloop) as (Hreq' & Hdom & new & Hcalls & Hnew).
    assert (Hgrow : forall k, is_Some (requests w !! k) -> is_Some (requests w1 !! k)).
    { intros k Hk. rewrite Hframe; [done|]. intros ->.
      rewrite fresh_request_unused in Hk. by destruct Hk. }
    split; [done|]. split; [auto|].
    eexists (_ :: new). split.
    { rewrite Hcalls, Hc, <- app_assoc. reflexivity. }
    constructor.
    + simpl. split; [done|]. apply fresh_request_unused.
    + eapply Forall_impl; [exact Hnew|]. intros [k r] [Hk Hnone]. simpl in *.
      split; [done|].
      destruct (requests w !! k) eqn:Hwk; [|done].
      destruct (Hgrow k) as [x Hx]; [by eexists|]. congruence.
  - injection Hloop as _ <-. by apply original_kept_refl.
Qed.

Lemma TimeSplit_execute_frame cfg ts fuel request original (w : World St) out w' :
  requests w !! request = Some original ->
  TimeSplit_execute E R cfg ts fuel request w = (out, w') ->
  original_kept request original w w'.
Proof.
  intros Hreq. unfold TimeSplit_execute, bind at 1, get_request.
  rewrite Hreq. simpl.
  destruct (TimeSplit_can_execute cfg ts original); simpl;
    [|intros [= _ <-]; by apply original_kept_refl].
  unfold bind, lift_option, raise, ret.
  repeat (match goal with
          | |- context [match ?o with Some _ => _ | None => _ end] =>
              destruct o; simpl;
              [|intros [= _ <-]; by apply original_kept_refl]
          end).
  destruct (time_split_loop _ _ _ _ _ _ _) as [r w1] eqn:Hloop.
  apply TimeSplit_loop_frame with (original := original) in Hloop; [|done|done].
  destruct r; intros [= _ <-]; exact Hloop.
Qed.

(** *** Column splitting *)

Lemma deepcopy_run {S} (w : World S) l r :
  requests w !! l = Some r ->
  deepcopy l w =
    (Ok (fresh (dom (requests w))),
     mkWorld (<[fresh (dom (requests w)) := r]> (requests w)) (results w)
             (runner_state w) (calls w)).
Proof. intros H. unfold deepcopy. by rewrite H. Qed.

Lemma modify_query_run {S} (w : World S) l r f :
  requests w !! l = Some r ->
  modify_query l f w =
    (Ok tt, mkWorld (<[l := with_query f r]> (requests w)) (results w)
                    (runner_state w) (calls w)).
Proof. intros H. unfold modify_query, modify_request. by rewrite H. Qed.

(** The second-phase request is built in a new object; nothing else in the
    store changes, whether the construction succeeds or raises. *)
Lemma ColumnSplit_second_phase_run {S} id_col project_col ts_col request
    original rows (w : World S) out w1 :
  requests w !! request = Some original ->
  ColumnSplit_second_phase E id_col project_col ts_col request rows w
    = (out, w1) ->
  let l := fresh (dom (requests w)) in
  results w1 = results w /\ runner_state w1 = runner_state w
  /\ calls w1 = calls w
  /\ (forall k, k <> l -> requests w1 !! k = requests w !! k)
  /\ match out with
     | Ok l' =>
         l' = l
         /\ exists c, candidates E id_col project_col ts_col rows = Some c
            /\ requests w1
               = <[l := ColumnSplit_second_request E id_col project_col ts_col
                          (event_ids c) (project_ids c)
                          (narrowed_from c) (narrowed_to c) original]>
                   (requests w)
     | Raise _ =>
         candidates E id_col project_col ts_col rows = None
         /\ is_Some (requests w1 !! l)
     | OutOfFuel => False
     end.
Proof.
  intros Hreq. unfold ColumnSplit_second_phase, candidates.
  unfold bind at 1. rewrite (deepcopy_run _ _ _ Hreq).
  set (l := fresh (dom (requests w))).
  assert (Hframe : forall r k, k <> l ->
            <[l := r]> (requests w) !! k = requests w !! k)
    by (intros; by apply lookup_insert_ne).
  repeat first
    [ match goal with
      | |- bind (lift_option _ ?o) _ _ = _ -> _ =>
          unfold bind at 1; destruct o as [?|] eqn:?; simpl;
          [| intros [= <- <-]; simpl;
             rewrite ?lookup_insert_eq;
             repeat split; eauto ]
      end
    | unfold bind at 1;
      erewrite modify_query_run by apply lookup_insert_eq;
      simpl; rewrite insert_insert_eq ].
  unfold ret. intros [= <- <-]. simpl.
  repeat split; eauto.
Qed.

Lemma ColumnSplit_execute_declined cfg id_col project_col ts_col request
    original (w : World St) :
  requests w !! request = Some original ->
  ColumnSplit_can_execute E cfg id_col project_col ts_col original = false ->
  ColumnSplit_execute E R cfg id_col project_col ts_col request w
  = (Ok None, w).
Proof.
  intros Hreq Hcan. unfold ColumnSplit_execute, bind, get_request.
  rewrite Hreq. simpl. by rewrite Hcan.
Qed.

Lemma ColumnSplit_first_phase cfg id_col project_col ts_col request original
    (w : World St) s1 m1 res1 :
  requests w !! request = Some original ->
  ColumnSplit_can_execute E cfg id_col project_col ts_col original = true ->
  run R (runner_state w) (minimal_request id_col project_col ts_col original)
    = (s1, m1, res1) ->
  let l1 := fresh (dom (requests w)) in
  let w2 := mkWorld (<[l1 := m1]> (requests w))
                    (<[fresh (dom (results w)) := res1]> (results w)) s1
                    (calls w ++ [(l1, minimal_request id_col project_col ts_col
                                        original)]) in
  ColumnSplit_execute E R cfg id_col project_col ts_col request w
  = (request' <-
       (match data res1 with
        | _ :: _ =>
            ColumnSplit_second_phase E id_col project_col ts_col request
              (data res1)
        | [] => ret request
        end) ;;
     final <- call_runner R request' ;;
     ret (Some final)) w2
  /\ requests w2 !! request = Some original
  /\ l1 <> request.
Proof.
  intros Hreq Hcan Hrun l1 w2.
  assert (Hne : l1 <> request).
  { intros Heq. pose proof (fresh_request_unused w) as Hf.
    unfold l1 in Heq. rewrite Heq in Hf. congruence. }
  split; [|split; [by unfold w2; simpl; rewrite lookup_insert_ne|done]].
  unfold ColumnSplit_execute, bind at 1, get_request.
  rewrite Hreq. simpl. rewrite Hcan. simpl.
  unfold bind at 1. rewrite (deepcopy_run _ _ _ Hreq).
  unfold bind at 1. erewrite modify_query_run by apply lookup_insert_eq.
  simpl. rewrite insert_insert_eq.
  unfold bind at 1.
  erewrite call_runner_run; [|apply lookup_insert_eq|exact Hrun].
  simpl. rewrite insert_insert_eq.
  unfold bind at 1. erewrite get_data_run by apply lookup_insert_eq.
  reflexivity.
Qed.

(** With no rows from the first phase the original request goes to the
    runner as it is. *)
Lemma empty_first_phase_run (cfg : Config)
    (id_col project_col ts_col : string) (request : loc) (original : Request)
    (w : World St) s1 m1 res1 s2 r2 res2 :
  requests w !! request = Some original ->
  ColumnSplit_can_execute E cfg id_col project_col ts_col original = true ->
  run R (runner_state w) (minimal_request id_col project_col ts_col original)
    = (s1, m1, res1) ->
  data res1 = [] ->
  run R s1 original = (s2, r2, res2) ->
  exists final w',
    ColumnSplit_execute E R cfg id_col project_col ts_col request w
      = (Ok (Some final), w')
    /\ results w' !! final = Some res2
    /\ calls w'
       = calls w ++ [(fresh (dom (requests w)),
                      minimal_request id_col project_col ts_col original);
                     (request, original)]
    /\ requests w' !! request = Some r2.
Proof.
  intros Hreq Hcan Hrun1 Hempty Hrun2.
  destruct (ColumnSplit_first_phase cfg id_col project_col ts_col request
              original w s1 m1 res1 Hreq Hcan Hrun1) as (Hexec & Hreq2 & Hne).
  rewrite Hexec, Hempty. clear Hexec.
  set (w2 := mkWorld _ _ _ _) in *.
  unfold bind at 1, ret at 1. unfold bind at 1.
  rewrite (call_runner_run w2 request original s2 r2 res2 Hreq2 Hrun2).
  unfold ret. eexists _, _. split; [reflexivity|]. simpl.
  split; [apply lookup_insert_eq|].
  split; [by rewrite <- app_assoc|].
  apply lookup_insert_eq.
Qed.

(** C2 (amended): when the precondition holds and the first phase returns
    no rows, the column split calls the runner a second time, on the
    caller's own request object with its value unchanged, and returns the
    result of that call: two runner calls in all. *)
Theorem column_split_empty_first_phase (cfg : Config)
    (id_col project_col ts_col : string) (request : loc) (original : Request)
    (w : World St) s1 m1 res1 s2 r2 res2 :
  requests w !! request = Some original ->
  ColumnSplit_can_execute E cfg id_col project_col ts_col original = true ->
  run R (runner_state w) (minimal_request id_col project_col ts_col original)
    = (s1, m1, res1) ->
  data res1 = [] ->
  run R s1 original = (s2, r2, res2) ->
  exists final w',
    ColumnSplit_execute E R cfg id_col project_col ts_col request w
      = (Ok (Some final), w')
    /\ results w' !! final = Some res2
    /\ calls w'
       = calls w ++ [(fresh (dom (requests w)),
                      minimal_request id_col project_col ts_col original);
                     (request, original)]
    /\ length (calls w') = S (S (length (calls w))).
Proof.
  intros Hreq Hcan Hrun1 Hempty Hrun2.
  destruct (empty_first_phase_run cfg id_col project_col ts_col
              request original w s1 m1 res1 s2 r2 res2
              Hreq Hcan Hrun1 Hempty Hrun2)
    as (final & w' & Hexec & Hres & Hcalls & _).
  exists final, w'. repeat (split; [done|]).
  rewrite Hcalls, length_app. simpl. lia.
Qed.

(** The second phase proper: the first phase returned rows. *)
Lemma ColumnSplit_execute_rows cfg id_col project_col ts_col request original
    (w : World St) s1 m1 res1 :
  requests w !! request = Some original ->
  ColumnSplit_can_execute E cfg id_col project_col ts_col original = true ->
  run R (runner_state w) (minimal_request id_col project_col ts_col original)
    = (s1, m1, res1) ->
  data res1 <> [] ->
  let l1 := fresh (dom (requests w)) in
  let l2 := fresh (dom (<[l1 := m1]> (requests w))) in
  exists out w',
    ColumnSplit_execute E R cfg id_col project_col ts_col request w = (out, w')
    /\ requests w' !! request = Some original
    /\ l1 <> request /\ l2 <> request
    /\ requests w !! l1 = None /\ requests w !! l2 = None
    /\ match candidates E id_col project_col ts_col (data res1) with
       | Some c =>
           let second :=
             ColumnSplit_second_request E id_col project_col ts_col
               (event_ids c) (project_ids c) (narrowed_from c) (narrowed_to c)
               original in
           exists final,
             out = Ok (Some final)
             /\ results w' !! final = Some (run R s1 second).2
             /\ calls w'
                = calls w ++ [(l1, minimal_request id_col project_col ts_col
                                     original);
                              (l2, second)]
       | None =>
           (exists e, out = Raise e)
           /\ calls w'
              = calls w ++ [(l1, minimal_request id_col project_col ts_col
                                   original)]
       end.
Proof.
  intros Hreq Hcan Hrun1 Hrows l1 l2.
  destruct (ColumnSplit_first_phase cfg id_col project_col ts_col request
              original w s1 m1 res1 Hreq Hcan Hrun1) as (Hexec & Hreq2 & Hne).
  rewrite Hexec. clear Hexec. fold l1 in Hreq2, Hne |- *.
  set (w2 := mkWorld _ _ _ _) in *.
  assert (Hl1 : requests w !! l1 = None) by apply fresh_request_unused.
  assert (Hl2 : requests w2 !! l2 = None) by apply (fresh_request_unused w2).
  assert (Hne2 : l2 <> request) by (intros Heq; rewrite Heq in Hl2; congruence).
  assert (Hl2' : requests w !! l2 = None).
  { destruct (decide (l2 = l1)) as [->|Hd]; [done|].
    unfold w2 in Hl2. simpl in Hl2. by rewrite lookup_insert_ne in Hl2. }
  destruct (data res1) as [|row rows] eqn:Hdata; [done|].
  destruct (ColumnSplit_second_phase E id_col project_col ts_col request
              (row :: rows) w2) as [out1 w3] eqn:Hsecond.
  pose proof (ColumnSplit_second_phase_run id_col project_col ts_col request
                original (row :: rows) w2 out1 w3 Hreq2 Hsecond)
    as (Hres & Hst & Hcalls & Hframe & Hout).
  fold l2 in Hframe, Hout.
  unfold bind at 1. rewrite Hsecond.
  destruct out1 as [l'|e|]; [| |done].
  - destruct Hout as (-> & c & Hc & Hq3). rewrite Hc.
    destruct (run R s1 (ColumnSplit_second_request E id_col project_col ts_col
                          (event_ids c) (project_ids c) (narrowed_from c)
                          (narrowed_to c) original))
      as [[s2 r2] res2] eqn:Hrun2.
    unfold bind at 1.
    erewrite call_runner_run;
      [|rewrite Hq3; apply lookup_insert_eq|rewrite Hst; exact Hrun2].
    unfold ret. eexists _, _. split; [reflexivity|]. simpl.
    split.
    { rewrite lookup_insert_ne by done. by rewrite Hframe. }
    repeat (split; [done|]).
    eexists. split; [reflexivity|].
    split; [apply lookup_insert_eq|].
    rewrite Hcalls. unfold w2. simpl. by rewrite <- app_assoc.
  - destruct Hout as (Hc & _). rewrite Hc.
    eexists _, _. split; [reflexivity|].
    split; [by rewrite Hframe|].
    repeat (split; [done|]).
    split; [by eexists|]. by rewrite Hcalls.
Qed.

Lemma datetime_plus_one t t' :
  datetime_plus t 1 = Some t' -> t' = t + 1000000.
Proof.
  unfold datetime_plus.
  change (timedelta 1) with (Some 1000000). cbv beta iota.
  destruct (datetime_in_range (t + 1000000)); intros [= <-]; reflexivity.
Qed.

Lemma candidates_inv id_col project_col ts_col rows c :
  candidates E id_col project_col ts_col rows = Some c ->
  exists ids projects timestamps oldest newest newest_date,
    column_values id_col rows = Some ids
    /\ column_values project_col rows = Some projects
    /\ column_values ts_col rows = Some timestamps
    /\ py_min (value_lt E) timestamps = Some oldest
    /\ parse_datetime E (LScalar oldest) 1 = Some (narrowed_from c)
    /\ py_max (value_lt E) timestamps = Some newest
    /\ parse_datetime E (LScalar newest) 1 = Some newest_date
    /\ narrowed_to c = newest_date + 1000000
    /\ event_ids c = list_of_set E ids
    /\ project_ids c = list_of_set E projects.
Proof.
  unfold candidates. intros H.
  destruct (column_values id_col rows) as [ids|] eqn:H1; [|done].
  destruct (column_values project_col rows) as [projects|] eqn:H2; [|done].
  destruct (column_values ts_col rows) as [timestamps|] eqn:H3; [|done].
  simpl in H.
  destruct (py_min (value_lt E) timestamps) as [oldest|] eqn:H4; [|done].
  simpl in H.
  destruct (parse_datetime E (LScalar oldest) 1) as [from_date|] eqn:H5; [|done].
  simpl in H.
  destruct (py_max (value_lt E) timestamps) as [newest|] eqn:H6; [|done].
  simpl in H.
  destruct (parse_datetime E (LScalar newest) 1) as [newest_date|] eqn:H7; [|done].
  simpl in H.
  destruct (datetime_plus newest_date 1) as [to_date|] eqn:Hplus; [|done].
  simpl in H. injection H as <-. simpl.
  apply datetime_plus_one in Hplus.
  by eexists ids, projects, timestamps, oldest, newest, newest_date.
Qed.

Lemma second_request_conditions id_col project_col ts_col eids pids lo hi original :
  get_conditions
    (query (ColumnSplit_second_request E id_col project_col ts_col eids pids
              lo hi original))
  = map (second_phase_condition E project_col ts_col pids lo hi)
        (get_conditions (query original)
         ++ [Simple (Col id_col) "IN" (LList eids)]).
Proof.
  unfold ColumnSplit_second_request, _replace_condition, add_conditions.
  simpl. unfold get_conditions at 1 2 3. simpl.
  rewrite replace_window_conditions, map_map. apply map_ext. intros c.
  unfold second_phase_condition.
  destruct (_identify_condition c project_col "IN"); simpl; [|done].
  rewrite !identify_replaced. simpl. by rewrite !andb_false_r.
Qed.

(** A rewritten condition compares the same column with the same
    operator. *)
Lemma second_phase_condition_identify project_col ts_col pids lo hi c field op :
  _identify_condition
    (second_phase_condition E project_col ts_col pids lo hi c) field op
  = _identify_condition c field op.
Proof.
  unfold second_phase_condition.
  destruct (_identify_condition c project_col "IN") eqn:H1.
  { apply identify_condition_spec in H1 as [lit ->].
    by rewrite !identify_replaced. }
  destruct (_identify_condition c ts_col ">=") eqn:H2.
  { apply identify_condition_spec in H2 as [lit ->].
    by rewrite !identify_replaced. }
  destruct (_identify_condition c ts_col "<") eqn:H3; [|done].
  apply identify_condition_spec in H3 as [lit ->].
  by rewrite !identify_replaced.
Qed.

(** The literals of the project and timestamp conditions after the
    rewriting. *)
Lemma second_conditions_literal project_col ts_col pids lo hi conds field op lit :
  In (Simple (Col field) op lit)
     (map (second_phase_condition E project_col ts_col pids lo hi) conds) ->
  (field = project_col /\ op = "IN" -> lit = LList pids)
  /\ (field = ts_col /\ op = ">=" -> lit = iso_literal E lo)
  /\ (field = ts_col /\ op = "<" -> lit = iso_literal E hi).
Proof.
  intros Hin. apply in_map_iff in Hin as (c & Hc & _).
  revert Hc. unfold second_phase_condition.
  destruct (_identify_condition c project_col "IN") eqn:H1.
  { intros [= <- <- <-]. by repeat split; intros [_ ?]. }
  destruct (_identify_condition c ts_col ">=") eqn:H2.
  { intros [= <- <- <-]. by repeat split; intros [_ ?]. }
  destruct (_identify_condition c ts_col "<") eqn:H3.
  { intros [= <- <- <-]. by repeat split; intros [_ ?]. }
  intros ->. rewrite identify_replaced in H1, H2, H3.
  repeat split; intros [-> ->]; rewrite !String.eqb_refl in *; done.
Qed.

(** The rewriting adds no condition and drops none: apart from the
    condition on the ids, the columns and operators compared are those of
    the original. *)
Lemma second_conditions_present id_col project_col ts_col pids lo hi conds eids
    field op :
  (exists lit,
     In (Simple (Col field) op lit)
        (map (second_phase_condition E project_col ts_col pids lo hi)
           (conds ++ [Simple (Col id_col) "IN" (LList eids)])))
  <-> (exists lit, In (Simple (Col field) op lit) conds)
      \/ (field = id_col /\ op = "IN").
Proof.
  rewrite <- !existsb_identify.
  assert (Hmap : forall l,
    existsb (fun c => _identify_condition c field op)
      (map (second_phase_condition E project_col ts_col pids lo hi) l)
    = existsb (fun c => _identify_condition c field op) l).
  { induction l as [|c l IH]; [done|].
    simpl. by rewrite IH, second_phase_condition_identify. }
  rewrite Hmap, existsb_app, orb_true_iff. simpl.
  rewrite orb_false_r, identify_replaced, andb_true_iff, !String.eqb_eq.
  split; (intros [H | [H1 H2]]; [by left | right; by subst]).
Qed.

(** C10 (amended): when the first phase returns rows, the second runner
    call gets a new copy of the caller's request with: the condition
    [id IN ids] added, [ids] being the first-phase id values taken once
    each; offset 0; limit the number of those ids; every [project IN]
    condition carrying the distinct first-phase projects; every timestamp
    [>=] condition carrying the smallest first-phase timestamp and every
    [<] condition the largest one plus one second. No condition is added
    but the one on the ids: the second request filters the project or
    bounds the timestamp exactly when the original does. *)
Theorem column_split_second_request (cfg : Config)
    (id_col project_col ts_col : string) (request : loc) (original : Request)
    (w : World St) s1 m1 res1 c :
  set_semantics E ->
  requests w !! request = Some original ->
  ColumnSplit_can_execute E cfg id_col project_col ts_col original = true ->
  run R (runner_state w) (minimal_request id_col project_col ts_col original)
    = (s1, m1, res1) ->
  data res1 <> [] ->
  candidates E id_col project_col ts_col (data res1) = Some c ->
  exists final w' l1 l2 second ids projects timestamps oldest newest newest_date,
    ColumnSplit_execute E R cfg id_col project_col ts_col request w
      = (Ok (Some final), w')
    /\ calls w'
       = calls w ++ [(l1, minimal_request id_col project_col ts_col original);
                     (l2, second)]
    /\ l2 <> request /\ requests w !! l2 = None
    /\ column_values id_col (data res1) = Some ids
    /\ column_values project_col (data res1) = Some projects
    /\ column_values ts_col (data res1) = Some timestamps
    /\ NoDup (event_ids c) /\ (forall x, x ∈ event_ids c <-> x ∈ ids)
    /\ NoDup (project_ids c) /\ (forall x, x ∈ project_ids c <-> x ∈ projects)
    /\ py_min (value_lt E) timestamps = Some oldest
    /\ parse_datetime E (LScalar oldest) 1 = Some (narrowed_from c)
    /\ py_max (value_lt E) timestamps = Some newest
    /\ parse_datetime E (LScalar newest) 1 = Some newest_date
    /\ narrowed_to c = newest_date + 1000000
    /\ In (Simple (Col id_col) "IN" (LList (event_ids c)))
          (get_conditions (query second))
    /\ offset (query second) = 0
    /\ limit (query second) = Some (len (event_ids c))
    /\ get_conditions (query second)
       = map (second_phase_condition E project_col ts_col (project_ids c)
                (narrowed_from c) (narrowed_to c))
             (get_conditions (query original)
              ++ [Simple (Col id_col) "IN" (LList (event_ids c))])
    /\ selected_columns (query second) = selected_columns (query original)
    /\ aggregations (query second) = aggregations (query original)
    /\ groupby (query second) = groupby (query original)
    /\ orderby (query second) = orderby (query original)
    /\ extensions second = extensions original
    /\ (forall lit,
          In (Simple (Col project_col) "IN" lit) (get_conditions (query second)) ->
          lit = LList (project_ids c))
    /\ (forall lit,
          In (Simple (Col ts_col) ">=" lit) (get_conditions (query second)) ->
          lit = iso_literal E (narrowed_from c))
    /\ (forall lit,
          In (Simple (Col ts_col) "<" lit) (get_conditions (query second)) ->
          lit = iso_literal E (narrowed_to c))
    /\ (forall field op,
          (exists lit,
             In (Simple (Col field) op lit) (get_conditions (query second)))
          <-> (exists lit,
                 In (Simple (Col field) op lit)
                    (get_conditions (query original)))
              \/ (field = id_col /\ op = "IN")).
Proof.
  intros Hset Hreq Hcan Hrun1 Hrows Hc.
  destruct (ColumnSplit_execute_rows cfg id_col project_col ts_col request
              original w s1 m1 res1 Hreq Hcan Hrun1 Hrows)
    as (out & w' & Hexec & _ & _ & Hne2 & _ & Hl2 & Hout).
  rewrite Hc in Hout. destruct Hout as (final & -> & _ & Hcalls).
  destruct (candidates_inv _ _ _ _ _ Hc)
    as (ids & projects & timestamps & oldest & newest & newest_date
        & Hids & Hprojects & Hts & Hmin & Hfrom & Hmax & Hnewest & Hto
        & Heids & Hpids).
  eexists final, w', _, _, _, ids, projects, timestamps, oldest, newest,
    newest_date.
  split; [exact Hexec|]. split; [exact Hcalls|].
  split; [exact Hne2|]. split; [exact Hl2|].
  repeat (split; [done|]).
  split; [rewrite Heids; apply Hset|]. split; [rewrite Heids; apply Hset|].
  split; [rewrite Hpids; apply Hset|]. split; [rewrite Hpids; apply Hset|].
  repeat (split; [done|]).
  split.
  { rewrite second_request_conditions, map_app. apply in_or_app. right.
    left. unfold second_phase_condition. rewrite !identify_replaced. simpl.
    rewrite !andb_false_r, andb_true_r.
    destruct (String.eqb id_col project_col) eqn:Heq; [|done].
    apply String.eqb_eq in Heq. subst project_col.
    rewrite Heids, Hpids. congruence. }
  split; [done|]. split; [done|].
  split; [apply second_request_conditions|].
  repeat (split; [done|]).
  rewrite second_request_conditions.
  split.
  { intros lit Hin.
    by apply (second_conditions_literal _ _ _ _ _ _ _ _ _ Hin). }
  split.
  { intros lit Hin.
    by apply (second_conditions_literal _ _ _ _ _ _ _ _ _ Hin). }
  split.
  { intros lit Hin.
    by apply (second_conditions_literal _ _ _ _ _ _ _ _ _ Hin). }
  intros field op. apply second_conditions_present.
Qed.

Lemma original_kept_untouched request original (w w' : World St) :
  original_kept request original w w' ->
  original_untouched request original w w'.
Proof. intros (H & _ & Hnew). by split. Qed.

(** C3 (amended): the time split calls the runner on new copies only and
    leaves the caller's request object as it was, whatever the runner does
    to what it receives; so does the column split when its first phase
    returns rows. *)
Theorem split_keeps_original (cfg : Config) (id_col project_col ts_col : string)
    (fuel : nat) (request : loc) (original : Request) (w : World St) :
  requests w !! request = Some original ->
  (forall out w',
     TimeSplit_execute E R cfg ts_col fuel request w = (out, w') ->
     original_untouched request original w w')
  /\ (data (run R (runner_state w)
              (minimal_request id_col project_col ts_col original)).2 <> [] ->
      forall out w',
        ColumnSplit_execute E R cfg id_col project_col ts_col request w
          = (out, w') ->
        original_untouched request original w w').
Proof.
  intros Hreq. split.
  - intros out w' Hexec. apply original_kept_untouched.
    by eapply TimeSplit_execute_frame.
  - intros Hrows out w' Hexec.
    destruct (ColumnSplit_can_execute E cfg id_col project_col ts_col original)
      eqn:Hcan.
    + destruct (run R (runner_state w)
                  (minimal_request id_col project_col ts_col original))
        as [[s1 m1] res1] eqn:Hrun1.
      destruct (ColumnSplit_execute_rows cfg id_col project_col ts_col request
                  original w s1 m1 res1 Hreq Hcan Hrun1 Hrows)
        as (out0 & w0 & Hexec0 & Hreq' & Hne1 & Hne2 & Hl1 & Hl2 & Hout).
      rewrite Hexec in Hexec0. injection Hexec0 as <- <-.
      split; [done|].
      destruct (candidates E id_col project_col ts_col (data res1)).
      * destruct Hout as (final & _ & _ & Hcalls).
        eexists. split; [exact Hcalls|]. by repeat constructor.
      * destruct Hout as (_ & Hcalls).
        eexists. split; [exact Hcalls|]. by repeat constructor.
    + rewrite (ColumnSplit_execute_declined cfg id_col project_col ts_col
                 request original w Hreq Hcan) in Hexec.
      injection Hexec as _ <-. split; [done|].
      exists []. split; [by rewrite app_nil_r|]. constructor.
Qed.

(** *** Declining and returning *)

Lemma can_execute_limit_pos cfg ts r :
  TimeSplit_can_execute cfg ts r = true -> 0 < default 0 (limit (query r)).
Proof.
  unfold TimeSplit_can_execute, _is_query_splittable.
  rewrite !andb_true_iff. intros [[[[[[_ Hl] _] _] _] _] _].
  apply Z.ltb_lt in Hl.
  destruct (limit (query r)) as [l|]; simpl; [|lia].
  destruct (l =? 0); lia.
Qed.

Lemma TimeSplit_execute_declined cfg ts fuel request original (w : World St) :
  requests w !! request = Some original ->
  TimeSplit_can_execute cfg ts original = false ->
  TimeSplit_execute E R cfg ts fuel request w = (Ok None, w).
Proof.
  intros Hreq Hcan. unfold TimeSplit_execute, bind, get_request.
  rewrite Hreq. simpl. by rewrite Hcan.
Qed.



(** *** Paging over adjacent windows *)


Lemma trim_count_nat rem (rows : list Row) :
  0 <= rem ->
  Z.to_nat (trim_count rem rows) = Nat.min (Z.to_nat rem) (length rows).
Proof.
  intros Hrem. unfold trim_count, len.
  destruct (0 <? rem) eqn:H1; simpl.
  - destruct (0 <? Z.of_nat (length rows)) eqn:H2; simpl.
    + lia.
    + apply Z.ltb_ge in H2. lia.
  - apply Z.ltb_ge in H1. lia.
Qed.


(** *** The exact store *)















(** *** Time range and extension *)





(** The combined strategy behaves alike: with no rows from the first
    phase, [__col_split] hands the caller's request object to the runner. *)
Lemma Legacy_col_split_empty id_col project_col ts_col request original
    (w : World St) s1 m1 res1 s2 r2 res2 :
  requests w !! request = Some original ->
  run R (runner_state w) (minimal_request id_col project_col ts_col original)
    = (s1, m1, res1) ->
  data res1 = [] ->
  run R s1 original = (s2, r2, res2) ->
  exists final w',
    Legacy_col_split E R id_col project_col ts_col request w = (Ok final, w')
    /\ results w' !! final = Some res2
    /\ calls w'
       = calls w ++ [(fresh (dom (requests w)),
                      minimal_request id_col project_col ts_col original);
                     (request, original)].
Proof.
  intros Hreq Hrun1 Hempty Hrun2.
  assert (Hne : fresh (dom (requests w)) <> request).
  { intros Heq. pose proof (fresh_request_unused w) as Hf.
    rewrite Heq in Hf. congruence. }
  unfold Legacy_col_split.
  unfold bind at 1. rewrite (deepcopy_run _ _ _ Hreq).
  unfold bind at 1. erewrite modify_query_run by apply lookup_insert_eq.
  simpl. rewrite insert_insert_eq.
  unfold bind at 1.
  erewrite call_runner_run; [|apply lookup_insert_eq|exact Hrun1].
  simpl. rewrite insert_insert_eq.
  unfold bind at 1. erewrite get_data_run by apply lookup_insert_eq.
  rewrite Hempty. unfold bind, ret.
  erewrite call_runner_run;
    [|simpl; rewrite lookup_insert_ne by done; exact Hreq|exact Hrun2].
  eexists _, _. split; [reflexivity|]. simpl.
  split; [apply lookup_insert_eq|]. by rewrite <- app_assoc.
Qed.

(** ** Further properties *)

(** *** Rewriting conditions *)

Lemma get_conditions_replace field operand lit q :
  get_conditions (_replace_condition field operand lit q)
  = map (fun c => if _identify_condition c field operand
                  then Simple (Col field) operand lit else c)
        (get_conditions q).
Proof.
  unfold _replace_condition. unfold get_conditions at 1. simpl.
  apply map_ext. intros c. by destruct (_identify_condition c field operand).
Qed.

(** X1: after [_replace_condition] the first condition on the field and
    operator carries the new literal, provided there was such a condition;
    when there was none there still is none. *)
Theorem replace_condition_lookup (field operand : string) (lit : Literal)
    (q : Query) :
  first_literal (get_conditions (_replace_condition field operand lit q))
    field operand
  = if existsb (fun c => _identify_condition c field operand)
         (get_conditions q)
    then Some lit else None.
Proof.
  rewrite get_conditions_replace.
  induction (get_conditions q) as [|c conds IH]; [done|].
  simpl. destruct (_identify_condition c field operand) eqn:Hc; simpl.
  - by rewrite identify_replaced, !String.eqb_refl.
  - by rewrite Hc.
Qed.

Lemma identify_replaced_other field operand lit field' operand' c :
  _identify_condition
    (if _identify_condition c field operand
     then Simple (Col field) operand lit else c) field' operand'
  = _identify_condition c field' operand'.
Proof.
  destruct (_identify_condition c field operand) eqn:Hc; [|done].
  apply identify_condition_spec in Hc as [lit0 ->].
  by rewrite !identify_replaced.
Qed.

(** X2: [_replace_condition] on one field and operator does not change
    what the first condition on any other field or operator says. *)
Theorem replace_condition_other_lookups (field operand field' operand' : string)
    (lit : Literal) (q : Query) :
  (field', operand') <> (field, operand) ->
  first_literal (get_conditions (_replace_condition field operand lit q))
    field' operand'
  = first_literal (get_conditions q) field' operand'.
Proof.
  intros Hne. rewrite get_conditions_replace.
  induction (get_conditions q) as [|c conds IH]; [done|].
  simpl. rewrite identify_replaced_other. rewrite IH.
  destruct (_identify_condition c field' operand') eqn:Hc'; [|done].
  destruct (_identify_condition c field operand) eqn:Hc; [|done].
  apply identify_condition_spec in Hc as [l ->], Hc' as [l' Heq].
  congruence.
Qed.

(** X3: of two successive rewrites of the same field and operator the
    last one wins; in particular a rewrite is idempotent. *)
Theorem replace_condition_last_wins (field operand : string)
    (lit1 lit2 : Literal) (q : Query) :
  _replace_condition field operand lit2 (_replace_condition field operand lit1 q)
  = _replace_condition field operand lit2 q.
Proof.
  unfold _replace_condition at 1. rewrite get_conditions_replace.
  unfold _replace_condition, set_conditions. simpl. f_equal. f_equal.
  rewrite !map_map. apply map_ext. intros c.
  destruct (_identify_condition c field operand) eqn:Hc; simpl.
  - by rewrite identify_replaced, !String.eqb_refl.
  - by rewrite Hc.
Qed.

(** X4: [_replace_condition] keeps the number of conditions, every OR-group
    and every condition it does not identify where they were: a bound that
    only occurs inside an OR-group is never rewritten. *)
Theorem replace_condition_keeps_others (field operand : string)
    (lit : Literal) (q : Query) :
  length (get_conditions (_replace_condition field operand lit q))
  = length (get_conditions q)
  /\ forall (i : nat) c,
       get_conditions q !! i = Some c ->
       (_identify_condition c field operand = false \/ exists alts, c = AnyOf alts) ->
       get_conditions (_replace_condition field operand lit q) !! i = Some c.
Proof.
  rewrite get_conditions_replace. split; [apply length_map|].
  intros i c Hi Hc. rewrite list_lookup_fmap, Hi. simpl.
  destruct Hc as [-> | [alts ->]]; done.
Qed.

(** *** Preconditions *)

(** X5: the column split accepts a request exactly when the [use_split]
    flag is on, the limit is positive, there is no group-by, the selected
    columns are a non-empty list, there are no aggregations, and the query
    refers to more columns than it would with the minimal projection. *)
Theorem column_split_precondition (cfg : Config)
    (id_col project_col ts_col : string) (request : Request) :
  ColumnSplit_can_execute E cfg id_col project_col ts_col request = true <->
  ( 0 < use_split cfg
    /\ (exists l, limit (query request) = Some l /\ 0 < l)
    /\ (groupby (query request) = None \/ groupby (query request) = Some [])
    /\ (exists c cols, selected_columns (query request) = Some (c :: cols))
    /\ aggregations (query request) = []
    /\ len (get_all_referenced_columns E
              (set_selected_columns [id_col; project_col; ts_col]
                 (query request)))
       < len (get_all_referenced_columns E (query request)) ).
Proof.
  unfold ColumnSplit_can_execute, _is_query_splittable, get_min_columns.
  set (q := query request).
  destruct (0 <? use_split cfg) eqn:Hu; simpl;
    [apply Z.ltb_lt in Hu|apply Z.ltb_ge in Hu; split; [done|lia]].
  assert (Hlim : (0 <? match limit q with
                       | Some l => if l =? 0 then 0 else l
                       | None => 0
                       end) = true <-> exists l, limit q = Some l /\ 0 < l).
  { rewrite Z.ltb_lt. destruct (limit q) as [l|].
    - destruct (l =? 0) eqn:El; [apply Z.eqb_eq in El|];
        split; try lia; try (intros (l' & [= <-] & ?); lia).
      intros ?. by exists l.
    - split; [lia|]. intros (l & Hl & _). discriminate. }
  destruct (0 <? _) eqn:Hl; simpl.
  2:{ split; [done|]. intros (_ & Hex & _). apply Hlim in Hex. done. }
  destruct (groupby q) as [[|g gs]|] eqn:Hg; simpl.
  3:{ rewrite !andb_true_iff, Z.ltb_lt.
      split.
      - intros [[Hs Ha] Hc]. split; [done|]. split; [by apply Hlim|].
        split; [by left|].
        destruct (selected_columns q) as [[|c cols]|]; try done.
        destruct (aggregations q); try done. by eauto 10.
      - intros (_ & _ & _ & (c & cols & ->) & -> & Hc). done. }
  - rewrite !andb_true_iff, Z.ltb_lt.
    split.
    + intros [[Hs Ha] Hc]. split; [done|]. split; [by apply Hlim|].
      split; [by right|].
      destruct (selected_columns q) as [[|c cols]|]; try done.
      destruct (aggregations q); try done. by eauto 10.
    + intros (_ & _ & _ & (c & cols & ->) & -> & Hc). done.
  - split; [done|]. intros (_ & _ & [?|?] & _); discriminate.
Qed.

(** X6: with the [use_split] flag off, a limit that is absent or zero, or a
    group-by, both strategies decline: they return [None], call no runner
    and leave the store as it was. *)
Theorem splitting_switched_off (cfg : Config) (id_col project_col ts_col : string)
    (fuel : nat) (request : loc) (original : Request) (w : World St) :
  requests w !! request = Some original ->
  _is_query_splittable cfg (query original) = false ->
  TimeSplit_execute E R cfg ts_col fuel request w = (Ok None, w)
  /\ ColumnSplit_execute E R cfg id_col project_col ts_col request w
     = (Ok None, w).
Proof.
  intros Hreq Hoff. split.
  - apply (TimeSplit_execute_declined cfg ts_col fuel request original w Hreq).
    unfold TimeSplit_can_execute. by rewrite Hoff.
  - apply (ColumnSplit_execute_declined cfg id_col project_col ts_col request
             original w Hreq).
    unfold ColumnSplit_can_execute. by rewrite Hoff.
Qed.

(** *** The time split as a whole *)

(** [execute] runs the loop from the first window and returns its overall
    result; what every iteration preserves holds at the end. *)
Lemma TimeSplit_execute_run (J : LoopVars -> World St -> Prop)
    cfg ts fuel request original (w : World St)
    to_lit from_lit to_date from_date first_start :
  requests w !! request = Some original ->
  TimeSplit_can_execute cfg ts original = true ->
  first_literal (get_conditions (query original)) ts "<" = Some to_lit ->
  first_literal (get_conditions (query original)) ts ">=" = Some from_lit ->
  parse_datetime E to_lit (date_align_seconds cfg) = Some to_date ->
  parse_datetime E from_lit (date_align_seconds cfg) = Some from_date ->
  datetime_minus to_date (split_step cfg) = Some first_start ->
  from_date < to_date ->
  0 < split_step cfg ->
  (iteration_bound from_date to_date (split_step cfg) <= fuel)%nat ->
  let L := default 0 (limit (query original)) in
  let v0 := mkVars None to_date (Z.max first_start from_date) 0
                   (offset (query original)) (split_step cfg) in
  J v0 w ->
  (forall v w1 w2,
     TimeSplit_inv request original (split_step cfg) from_date v w1 ->
     J v w1 ->
     loop_condition L v = true ->
     let sub := TimeSplit_sub_request E ts L v original in
     let out := run R (runner_state w1) sub in
     let o := default (fresh (dom (results w1))) (overall_result v) in
     let v' := step_vars L from_date v o (accumulated w1 v) (data out.2) in
     calls w2 = calls w1 ++ [(fresh (dom (requests w1)), sub)] ->
     runner_state w2 = out.1.1 ->
     accumulated w2 v'
       = Some (trimmed_rows v (accumulated w1 v) (data out.2)) ->
     J v' w2) ->
  exists v' w' result,
    TimeSplit_execute E R cfg ts fuel request w = (Ok (Some result), w')
    /\ overall_result v' = Some result
    /\ loop_condition L v' = false
    /\ J v' w'
    /\ is_Some (accumulated w' v').
Proof.
  intros Hreq Hcan Hto Hfrom Hpto Hpfrom Hfirst Hrange Hstep Hfuel L v0 HJ0
    HJstep.
  pose proof (can_execute_limit_pos cfg ts original Hcan) as HL. fold L in HL.
  pose proof (datetime_minus_Some _ _ _ Hfirst) as [Hfs _].
  set (step0 := split_step cfg) in *.
  set (mu := loop_measure L from_date (step0 * 1000000)).
  set (I := fun (v : LoopVars) (w' : World St) =>
              TimeSplit_inv request original step0 from_date v w'
              /\ J v w'
              /\ (is_Some (accumulated w' v) \/ loop_condition L v = true)).
  destruct (time_split_loop_run (TimeSplit_prepare E ts request L)
              L from_date I mu) with (fuel := fuel) (v := v0) (w := w)
    as (v' & w' & Hloop & (Hinv & HJ & Hsome) & Hexit).
  - intros v w1 (Hinv & HJ & _) Hcond.
    destruct (TimeSplit_body_step ts request original L from_date step0
                v w1 Hstep Hinv Hcond)
      as (w2 & Hb & Hinv' & Hmu & _ & Hc & Hs & _ & Hacc).
    eexists _, w2. split; [exact Hb|]. split; [|exact Hmu].
    split; [exact Hinv'|]. split.
    + by apply (HJstep v w1 w2).
    + left. rewrite Hacc. by eexists.
  - pose proof (loop_measure_initial L from_date to_date step0 None
                  (Z.max first_start from_date) 0 (offset (query original))
                  Hstep) as Hm.
    unfold mu, v0. lia.
  - split; [|split; [done|]].
    + split; [done|]. split; [done|]. split; simpl; lia.
    + right. unfold loop_condition. simpl.
      apply andb_true_iff. split; apply Z.ltb_lt; lia.
  - destruct Hsome as [Hsome | Hc]; [|congruence].
    assert (Hacc := Hsome). unfold accumulated in Hsome.
    destruct (overall_result v') as [o|] eqn:Ho; [|by destruct Hsome].
    exists v', w', o. split; [|done].
    unfold TimeSplit_execute, bind at 1, get_request.
    rewrite Hreq. simpl. rewrite Hcan. simpl.
    unfold bind at 1. rewrite Hto. simpl.
    unfold bind at 1. rewrite Hfrom. simpl.
    unfold bind at 1. rewrite Hpto. simpl.
    unfold bind at 1. rewrite Hpfrom. simpl.
    unfold bind at 1. fold step0. rewrite Hfirst. simpl.
    unfold bind. fold L v0. rewrite Hloop. unfold ret. by rewrite Ho.
Qed.

Lemma replay_snoc s reqs r :
  replay R s (reqs ++ [r])
  = let '(s1, rows) := replay R s reqs in
    let '(s', _, result) := run R s1 r in
    (s', rows ++ data result).
Proof.
  revert s. induction reqs as [|r0 reqs IH]; intros s; simpl.
  - destruct (run R s r) as [[s' r'] result]. by rewrite app_nil_r.
  - destruct (run R s r0) as [[s0 r0'] result0]. rewrite IH.
    destruct (replay R s0 reqs) as [s1 rows].
    destruct (run R s1 r) as [[s' r'] result]. by rewrite app_assoc.
Qed.

(** Trimming after a merge, when the rows before were everything received
    so far minus the offset. *)
Lemma trimmed_rows_skip (O : Z) v before (P new : list Row) :
  0 <= O ->
  default [] before = skipn (Z.to_nat O) P ->
  remaining_offset v = Z.max 0 (O - len P) ->
  trimmed_rows v before new = skipn (Z.to_nat O) (P ++ new)
  /\ remaining_offset v
       - trim_count (remaining_offset v) (merged_rows before new)
     = Z.max 0 (O - len (P ++ new)).
Proof.
  intros HO Hacc Hrem.
  assert (Hmerged : merged_rows before new = skipn (Z.to_nat O) P ++ new).
  { rewrite <- Hacc. by destruct before. }
  unfold trimmed_rows. rewrite Hmerged. unfold len in *.
  rewrite trim_count_nat by lia.
  assert (Hrhs : skipn (Z.to_nat O) (P ++ new)
                 = skipn (Z.to_nat O) P
                   ++ skipn (Z.to_nat O - length P) new) by apply skipn_app.
  rewrite Hrhs. clear Hrhs.
  destruct (Z.le_gt_cases O (Z.of_nat (length P))) as [Hle | Hgt].
  - replace (Z.to_nat (remaining_offset v)) with 0%nat by lia.
    replace (Z.to_nat O - length P)%nat with 0%nat by lia.
    simpl. split; [done|].
    unfold trim_count. replace (0 <? remaining_offset v) with false;
      [simpl; rewrite length_app; lia|].
    symmetry. apply Z.ltb_ge. lia.
  - assert (Hnil : skipn (Z.to_nat O) P = []) by (apply skipn_all2; lia).
    rewrite Hnil. simpl.
    replace (Z.to_nat (remaining_offset v)) with (Z.to_nat O - length P)%nat
      by lia.
    split.
    + destruct (Nat.le_gt_cases (Z.to_nat O - length P) (length new)).
      * by rewrite Nat.min_l.
      * rewrite Nat.min_r by lia. by rewrite !skipn_all2 by lia.
    + unfold trim_count, len. rewrite length_app.
      destruct (0 <? remaining_offset v) eqn:H1;
        [apply Z.ltb_lt in H1|apply Z.ltb_ge in H1; lia]. simpl.
      destruct (0 <? Z.of_nat (length new)) eqn:H2;
        [apply Z.ltb_lt in H2|apply Z.ltb_ge in H2]; lia.
Qed.

Lemma received_step O w0 L A v (w1 w2 : World St) new all l sub :
  0 <= O ->
  received O w0 v w1 new all ->
  let out := run R (runner_state w1) sub in
  let o := default (fresh (dom (results w1))) (overall_result v) in
  let v' := step_vars L A v o (accumulated w1 v) (data out.2) in
  calls w2 = calls w1 ++ [(l, sub)] ->
  runner_state w2 = out.1.1 ->
  accumulated w2 v' = Some (trimmed_rows v (accumulated w1 v) (data out.2)) ->
  received O w0 v' w2 (new ++ [(l, sub)]) (all ++ data out.2).
Proof.
  intros HO (Hcalls & Hreplay & Hacc & Hrem & Htotal) out o v' Hc Hs Hacc'.
  destruct (trimmed_rows_skip O v (accumulated w1 v) all (data out.2)
              HO Hacc Hrem) as [Htrim Hrem'].
  split; [by rewrite Hc, Hcalls, app_assoc|].
  split.
  { rewrite map_app. cbn [map snd]. rewrite replay_snoc, Hreplay.
    rewrite Hs. unfold out. by destruct (run R (runner_state w1) sub) as [[s' r'] result]. }
  rewrite Hacc'. simpl.
  split; [done|].
  unfold v', step_vars.
  destruct (len (trimmed_rows v (accumulated w1 v) (data out.2)) <? L);
    simpl; by split.
Qed.

(** X7: whatever the runner returns, the rows the time split hands back
    are the rows of all its runner calls, in the order of the calls, minus
    the first [offset] of them. *)
Theorem time_split_result_is_concatenation (cfg : Config) (ts : string)
    (fuel : nat) (request : loc) (original : Request) (w : World St)
    (to_lit from_lit : Literal) (to_date from_date first_start : Z) :
  requests w !! request = Some original ->
  TimeSplit_can_execute cfg ts original = true ->
  0 <= offset (query original) ->
  first_literal (get_conditions (query original)) ts "<" = Some to_lit ->
  first_literal (get_conditions (query original)) ts ">=" = Some from_lit ->
  parse_datetime E to_lit (date_align_seconds cfg) = Some to_date ->
  parse_datetime E from_lit (date_align_seconds cfg) = Some from_date ->
  datetime_minus to_date (split_step cfg) = Some first_start ->
  from_date < to_date ->
  0 < split_step cfg ->
  (iteration_bound from_date to_date (split_step cfg) <= fuel)%nat ->
  exists result w' new all,
    TimeSplit_execute E R cfg ts fuel request w = (Ok (Some result), w')
    /\ calls w' = calls w ++ new
    /\ replay R (runner_state w) (map snd new) = (runner_state w', all)
    /\ data <$> results w' !! result
       = Some (skipn (Z.to_nat (offset (query original))) all).
Proof.
  intros Hreq Hcan HO Hto Hfrom Hpto Hpfrom Hfirst Hrange Hstep Hfuel.
  set (O := offset (query original)) in *.
  destruct (TimeSplit_execute_run
              (fun v w1 => exists new all, received O w v w1 new all)
              cfg ts fuel request original w to_lit from_lit to_date
              from_date first_start)
    as (v' & w' & result & Hexec & Ho & _ & (new & all & Hrec) & Hsome);
    try done.
  - exists [], []. unfold received. simpl.
    split; [by rewrite app_nil_r|]. split; [done|].
    split; [by rewrite skipn_nil|].
    split; [|done]. change (len []) with 0. unfold O in *. lia.
  - intros v w1 w2 _ (new & all & Hrec) _ sub out o v' Hc Hs Hacc.
    eexists _, _. by eapply (received_step O w).
  - exists result, w', new, all. split; [done|].
    destruct Hrec as (Hcalls & Hreplay & Hacc & _).
    split; [done|]. split; [done|].
    unfold accumulated in Hacc, Hsome. rewrite Ho in Hacc, Hsome.
    destruct (results w' !! result) as [r|]; [|by destruct Hsome].
    simpl in *. by rewrite Hacc.
Qed.

(** X8: when the runner never returns more rows than the limit it is asked
    for, the time split never returns more rows than the limit of the
    original request. *)
Theorem time_split_at_most_limit (cfg : Config) (ts : string)
    (fuel : nat) (request : loc) (original : Request) (w : World St)
    (to_lit from_lit : Literal) (to_date from_date first_start : Z) :
  honours_limit R ->
  requests w !! request = Some original ->
  TimeSplit_can_execute cfg ts original = true ->
  0 <= offset (query original) ->
  first_literal (get_conditions (query original)) ts "<" = Some to_lit ->
  first_literal (get_conditions (query original)) ts ">=" = Some from_lit ->
  parse_datetime E to_lit (date_align_seconds cfg) = Some to_date ->
  parse_datetime E from_lit (date_align_seconds cfg) = Some from_date ->
  datetime_minus to_date (split_step cfg) = Some first_start ->
  from_date < to_date ->
  0 < split_step cfg ->
  (iteration_bound from_date to_date (split_step cfg) <= fuel)%nat ->
  exists result w' rows,
    TimeSplit_execute E R cfg ts fuel request w = (Ok (Some result), w')
    /\ data <$> results w' !! result = Some rows
    /\ len rows <= default 0 (limit (query original)).
Proof.
  intros Hlimit Hreq Hcan HO Hto Hfrom Hpto Hpfrom Hfirst Hrange Hstep Hfuel.
  set (O := offset (query original)) in *.
  set (L := default 0 (limit (query original))).
  pose proof (can_execute_limit_pos cfg ts original Hcan) as HL. fold L in HL.
  destruct (TimeSplit_execute_run
              (fun v w1 => (exists new all, received O w v w1 new all)
                           /\ len (default [] (accumulated w1 v)) <= L)
              cfg ts fuel request original w to_lit from_lit to_date
              from_date first_start)
    as (v' & w' & result & Hexec & Ho & _ & (_ & Hlen) & Hsome);
    try done.
  - split.
    + exists [], []. unfold received. simpl.
      split; [by rewrite app_nil_r|]. split; [done|].
      split; [by rewrite skipn_nil|].
      split; [|done]. change (len []) with 0. unfold O in *. lia.
    + simpl. change (len []) with 0. lia.
  - fold L. intros v w1 w2 _ ((new & all & Hrec) & Hlen) Hcond sub out o v'
      Hc Hs Hacc.
    split.
    + eexists _, _. by eapply (received_step O w).
    + rewrite Hacc. simpl.
      pose proof Hrec as (_ & _ & Hacc1 & Hrem & Htotal).
      destruct (trimmed_rows_skip O v (accumulated w1 v) all (data out.2)
                  HO Hacc1 Hrem) as [Htrim _].
      rewrite Htrim.
      pose proof (Hlimit (runner_state w1) sub
                    (L - total_results v + remaining_offset v) eq_refl) as Hnew.
      fold out in Hnew.
      unfold loop_condition in Hcond.
      apply andb_true_iff in Hcond as [_ Hlt]. apply Z.ltb_lt in Hlt.
      rewrite Hacc1 in Htotal. unfold len in *.
      rewrite length_skipn in *. rewrite length_app. lia.
  - exists result, w'.
    unfold accumulated in Hlen, Hsome. rewrite Ho in Hlen, Hsome.
    destruct (results w' !! result) as [r|]; [|by destruct Hsome].
    exists (data r). by repeat split.
Qed.

Lemma window_floor_cons hi l h ws :
  window_floor hi ((l, h) :: ws) = window_floor l ws.
Proof.
  unfold window_floor. destruct ws as [|win ws]; [done|].
  rewrite last_cons_cons.
  assert (Hsome : is_Some (last (win :: ws))).
  { clear. revert win. induction ws as [|x ws IH]; intros win; [by eexists|].
    rewrite last_cons_cons. apply IH. }
  destruct Hsome as [y ->]. done.
Qed.

Lemma contiguous_snoc hi windows lo hi' :
  contiguous hi windows ->
  hi' = window_floor hi windows ->
  lo < hi' ->
  contiguous hi (windows ++ [(lo, hi')])
  /\ window_floor hi (windows ++ [(lo, hi')]) = lo.
Proof.
  intros Hc Heq Hlt. split.
  - revert hi Hc Heq. induction windows as [|[l h] ws IH]; intros hi Hc Heq.
    + simpl. unfold window_floor in Heq. simpl in Heq. by subst.
    + simpl in *. destruct Hc as (-> & Hl & Hc). split; [done|]. split; [done|].
      apply IH; [done|]. by rewrite window_floor_cons in Heq.
  - unfold window_floor. by rewrite last_snoc.
Qed.

(** X9: the sub-requests of the time split probe windows that follow one
    another into the past without gap or overlap, starting at [to_date];
    no window is empty and none reaches below [from_date]. *)
Theorem time_split_windows (cfg : Config) (ts : string)
    (fuel : nat) (request : loc) (original : Request) (w : World St)
    (to_lit from_lit : Literal) (to_date from_date first_start : Z) :
  requests w !! request = Some original ->
  TimeSplit_can_execute cfg ts original = true ->
  first_literal (get_conditions (query original)) ts "<" = Some to_lit ->
  first_literal (get_conditions (query original)) ts ">=" = Some from_lit ->
  parse_datetime E to_lit (date_align_seconds cfg) = Some to_date ->
  parse_datetime E from_lit (date_align_seconds cfg) = Some from_date ->
  datetime_minus to_date (split_step cfg) = Some first_start ->
  from_date < to_date ->
  0 < split_step cfg ->
  (iteration_bound from_date to_date (split_step cfg) <= fuel)%nat ->
  exists result w' new windows,
    TimeSplit_execute E R cfg ts fuel request w = (Ok (Some result), w')
    /\ calls w' = calls w ++ new
    /\ Forall2 (probes E ts (default 0 (limit (query original))) original)
         new windows
    /\ windows <> []
    /\ contiguous to_date windows
    /\ Forall (fun win => from_date <= win.1) windows.
Proof.
  intros Hreq Hcan Hto Hfrom Hpto Hpfrom Hfirst Hrange Hstep Hfuel.
  set (L := default 0 (limit (query original))).
  pose proof (can_execute_limit_pos cfg ts original Hcan) as HL. fold L in HL.
  pose proof (datetime_minus_Some _ _ _ Hfirst) as [Hfs _].
  destruct (TimeSplit_execute_run
              (fun v w1 =>
                 exists new windows,
                   calls w1 = calls w ++ new
                   /\ Forall2 (probes E ts L original) new windows
                   /\ contiguous to_date windows
                   /\ Forall (fun win => from_date <= win.1) windows
                   /\ (loop_condition L v = true ->
                       split_end v = window_floor to_date windows)
                   /\ (windows = [] -> loop_condition L v = true))
              cfg ts fuel request original w to_lit from_lit to_date
              from_date first_start)
    as (v' & w' & result & Hexec & _ & Hexit
        & (new & windows & Hcalls & Hprobes & Hcont & Hlow & _ & Hne) & _);
    try done.
  - exists [], []. split; [by rewrite app_nil_r|]. split; [constructor|].
    split; [done|]. split; [constructor|]. split; [done|].
    intros _. unfold loop_condition. simpl.
    apply andb_true_iff. split; apply Z.ltb_lt; lia.
  - fold L. intros v w1 w2 (_ & _ & _ & Hfromv)
      (new & windows & Hcalls & Hprobes & Hcont & Hlow & Hend & _) Hcond
      sub out o v' Hc _ _.
    pose proof Hcond as Hcond'. unfold loop_condition in Hcond'.
    apply andb_true_iff in Hcond' as [Hwin _]. apply Z.ltb_lt in Hwin.
    destruct (contiguous_snoc to_date windows (split_start v) (split_end v)
                Hcont (Hend Hcond) Hwin) as [Hcont' Hfloor].
    exists (new ++ [(fresh (dom (requests w1)), sub)]),
      (windows ++ [(split_start v, split_end v)]).
    split; [by rewrite Hc, Hcalls, app_assoc|].
    split.
    { apply Forall2_app; [done|]. constructor; [|constructor]. by exists v. }
    split; [done|].
    split; [apply Forall_app; split; [done|]; by repeat constructor|].
    split.
    + rewrite Hfloor. unfold v', step_vars.
      destruct (_ <? L) eqn:Hshort; [done|].
      unfold loop_condition. simpl. rewrite Hshort, andb_false_r. done.
    + intros Hnil. by destruct windows.
  - exists result, w', new, windows. repeat (split; [done|]).
    split; [|done]. intros Hnil. pose proof (Hne Hnil) as Htrue.
    unfold L in Htrue. congruence.
Qed.

(** X10: when the first probe comes back with at least [limit + offset]
    rows the time split calls the runner once and returns those rows minus
    the first [offset]; the window is never widened. *)
Theorem time_split_single_probe (cfg : Config) (ts : string)
    (fuel : nat) (request : loc) (original : Request) (w : World St)
    (to_lit from_lit : Literal) (to_date from_date first_start : Z) :
  requests w !! request = Some original ->
  TimeSplit_can_execute cfg ts original = true ->
  0 <= offset (query original) ->
  first_literal (get_conditions (query original)) ts "<" = Some to_lit ->
  first_literal (get_conditions (query original)) ts ">=" = Some from_lit ->
  parse_datetime E to_lit (date_align_seconds cfg) = Some to_date ->
  parse_datetime E from_lit (date_align_seconds cfg) = Some from_date ->
  datetime_minus to_date (split_step cfg) = Some first_start ->
  from_date < to_date ->
  0 < split_step cfg ->
  (iteration_bound from_date to_date (split_step cfg) <= fuel)%nat ->
  let L := default 0 (limit (query original)) in
  let v0 := mkVars None to_date (Z.max first_start from_date) 0
                   (offset (query original)) (split_step cfg) in
  let sub := TimeSplit_sub_request E ts L v0 original in
  let answer := data (run R (runner_state w) sub).2 in
  L + offset (query original) <= len answer ->
  exists result w',
    TimeSplit_execute E R cfg ts fuel request w = (Ok (Some result), w')
    /\ calls w' = calls w ++ [(fresh (dom (requests w)), sub)]
    /\ data <$> results w' !! result
       = Some (skipn (Z.to_nat (offset (query original))) answer).
Proof.
  intros Hreq Hcan HO Hto Hfrom Hpto Hpfrom Hfirst Hrange Hstep Hfuel
    L v0 sub answer Hfull.
  set (O := offset (query original)) in *.
  pose proof (can_execute_limit_pos cfg ts original Hcan) as HL. fold L in HL.
  pose proof (datetime_minus_Some _ _ _ Hfirst) as [Hfs _].
  assert (Hc0 : loop_condition L v0 = true).
  { unfold loop_condition. simpl.
    apply andb_true_iff. split; apply Z.ltb_lt; lia. }
  destruct (TimeSplit_execute_run
              (fun v w1 =>
                 (v = v0 /\ w1 = w)
                 \/ (calls w1 = calls w ++ [(fresh (dom (requests w)), sub)]
                     /\ L <= total_results v
                     /\ accumulated w1 v = Some (skipn (Z.to_nat O) answer)))
              cfg ts fuel request original w to_lit from_lit to_date
              from_date first_start)
    as (v' & w' & result & Hexec & Ho & Hexit & HJ & _); try done.
  - by left.
  - fold L v0. intros v w1 w2 _ [[-> ->] | (_ & Hdone & _)] Hcond
      sub1 out o v' Hc _ Hacc.
    2:{ unfold loop_condition in Hcond.
        apply andb_true_iff in Hcond as [_ Hlt]. apply Z.ltb_lt in Hlt. lia. }
    right. subst sub1 out o.
    change (data (run R (runner_state w)
                    (TimeSplit_sub_request E ts L v0 original)).2)
      with answer in *.
    assert (Htrim : trimmed_rows v0 (accumulated w v0) answer
                    = skipn (Z.to_nat O) answer).
    { destruct (trimmed_rows_skip O v0 (accumulated w v0) [] answer HO)
        as [Ht _]; [by rewrite skipn_nil|simpl; change (len []) with 0; lia|].
      exact Ht. }
    split; [done|]. rewrite Hacc, Htrim. split; [|done].
    unfold v', step_vars. rewrite Htrim.
    assert (Hlen : len (skipn (Z.to_nat O) answer) = len answer - O).
    { unfold len. rewrite length_skipn. unfold len in Hfull. lia. }
    destruct (_ <? L) eqn:Hshort; simpl; lia.
  - destruct HJ as [[Hv _] | (Hcalls & _ & Hacc)].
    { rewrite Hv in Hexit. unfold L in Hc0. congruence. }
    exists result, w'. split; [done|]. split; [done|].
    unfold accumulated in Hacc. by rewrite Ho in Hacc.
Qed.

(** X11: the first window is computed outside the [try]: when [to_date]
    lies less than [split_step] seconds after [datetime.min], [execute]
    raises [OverflowError] before any runner call, where the same overflow
    inside the loop is turned into [from_date]. *)
Theorem time_split_first_window_overflow (cfg : Config) (ts : string)
    (fuel : nat) (request : loc) (original : Request) (w : World St)
    (to_lit from_lit : Literal) (to_date from_date : Z) :
  requests w !! request = Some original ->
  TimeSplit_can_execute cfg ts original = true ->
  first_literal (get_conditions (query original)) ts "<" = Some to_lit ->
  first_literal (get_conditions (query original)) ts ">=" = Some from_lit ->
  parse_datetime E to_lit (date_align_seconds cfg) = Some to_date ->
  parse_datetime E from_lit (date_align_seconds cfg) = Some from_date ->
  0 < split_step cfg ->
  to_date < split_step cfg * 1000000 ->
  TimeSplit_execute E R cfg ts fuel request w = (Raise OverflowError, w)
  /\ next_split_start to_date (split_step cfg) from_date = from_date.
Proof.
  intros Hreq Hcan Hto Hfrom Hpto Hpfrom Hstep Hsmall.
  assert (Hnone : datetime_minus to_date (split_step cfg) = None).
  { destruct (datetime_minus to_date (split_step cfg)) as [d|] eqn:Hd; [|done].
    apply datetime_minus_Some in Hd. lia. }
  split.
  - unfold TimeSplit_execute, bind at 1, get_request.
    rewrite Hreq. simpl. rewrite Hcan. simpl.
    unfold bind at 1. rewrite Hto. simpl.
    unfold bind at 1. rewrite Hfrom. simpl.
    unfold bind at 1. rewrite Hpto. simpl.
    unfold bind at 1. rewrite Hpfrom. simpl.
    unfold bind at 1. by rewrite Hnone.
  - unfold next_split_start. by rewrite Hnone.
Qed.

(** *** The narrowed range of the column split *)

Lemma fold_min_spec (lt : Scalar -> Scalar -> bool) (key : Scalar -> Z) rest x :
  (forall a b, a ∈ x :: rest -> b ∈ x :: rest ->
               (lt a b = true <-> key a < key b)) ->
  let m := fold_left (fun best y => if lt y best then y else best) rest x in
  m ∈ x :: rest /\ forall a, a ∈ x :: rest -> key m <= key a.
Proof.
  revert x. induction rest as [|y rest IH]; intros x Hord; simpl.
  - split; [left|]. intros a Ha. apply list_elem_of_singleton in Ha as ->. lia.
  - set (x' := if lt y x then y else x).
    assert (Hx' : x' ∈ x :: y :: rest)
      by (unfold x'; destruct (lt y x); [right; left|left]).
    assert (Hkx : key x' <= key x /\ key x' <= key y).
    { unfold x'. destruct (lt y x) eqn:Hlt.
      - apply Hord in Hlt; [lia|right; left|left].
      - assert (~ key y < key x).
        { intros Hk. apply Hord in Hk; [congruence|right; left|left]. }
        lia. }
    destruct (IH x') as [Hin Hmin].
    { intros a b Ha Hb. apply Hord.
      - apply elem_of_cons in Ha as [->|Ha]; [done|]. right. by right.
      - apply elem_of_cons in Hb as [->|Hb]; [done|]. right. by right. }
    split.
    + apply elem_of_cons in Hin as [->|Hin]; [done|]. right. by right.
    + intros a Ha. pose proof (Hmin x' (ltac:(left))) as Hm.
      apply elem_of_cons in Ha as [->|Ha]; [lia|].
      apply elem_of_cons in Ha as [->|Ha]; [lia|].
      apply Hmin. by right.
Qed.

Lemma fold_max_spec (lt : Scalar -> Scalar -> bool) (key : Scalar -> Z) rest x :
  (forall a b, a ∈ x :: rest -> b ∈ x :: rest ->
               (lt a b = true <-> key a < key b)) ->
  let m := fold_left (fun best y => if lt best y then y else best) rest x in
  m ∈ x :: rest /\ forall a, a ∈ x :: rest -> key a <= key m.
Proof.
  revert x. induction rest as [|y rest IH]; intros x Hord; simpl.
  - split; [left|]. intros a Ha. apply list_elem_of_singleton in Ha as ->. lia.
  - set (x' := if lt x y then y else x).
    assert (Hx' : x' ∈ x :: y :: rest)
      by (unfold x'; destruct (lt x y); [right; left|left]).
    assert (Hkx : key x <= key x' /\ key y <= key x').
    { unfold x'. destruct (lt x y) eqn:Hlt.
      - apply Hord in Hlt; [lia|left|right; left].
      - assert (~ key x < key y).
        { intros Hk. apply Hord in Hk; [congruence|left|right; left]. }
        lia. }
    destruct (IH x') as [Hin Hmax].
    { intros a b Ha Hb. apply Hord.
      - apply elem_of_cons in Ha as [->|Ha]; [done|]. right. by right.
      - apply elem_of_cons in Hb as [->|Hb]; [done|]. right. by right. }
    split.
    + apply elem_of_cons in Hin as [->|Hin]; [done|]. right. by right.
    + intros a Ha. pose proof (Hmax x' (ltac:(left))) as Hm.
      apply elem_of_cons in Ha as [->|Ha]; [lia|].
      apply elem_of_cons in Ha as [->|Ha]; [lia|].
      apply Hmax. by right.
Qed.

(** X12: when Python's order on the first-phase timestamps is the order of
    the instants they parse to, the narrowed range of the second phase
    holds the instant of every first-phase row: none of the candidates
    falls outside it. *)
Theorem column_split_range_contains (id_col project_col ts_col : string)
    (rows : list Row) (c : Candidates) (timestamps : list Scalar) :
  candidates E id_col project_col ts_col rows = Some c ->
  column_values ts_col rows = Some timestamps ->
  (forall a b ta tb, a ∈ timestamps -> b ∈ timestamps ->
     parse_datetime E (LScalar a) 1 = Some ta ->
     parse_datetime E (LScalar b) 1 = Some tb ->
     (value_lt E a b = true <-> ta < tb)) ->
  (forall a, a ∈ timestamps -> is_Some (parse_datetime E (LScalar a) 1)) ->
  forall a t, a ∈ timestamps ->
    parse_datetime E (LScalar a) 1 = Some t ->
    narrowed_from c <= t < narrowed_to c.
Proof.
  intros Hc Hts Hord Hparse a t Ha Ht.
  destruct (candidates_inv _ _ _ _ _ Hc)
    as (ids & projects & timestamps' & oldest & newest & newest_date
        & _ & _ & Hts' & Hmin & Hfrom & Hmax & Hnewest & Hto & _).
  rewrite Hts in Hts'. injection Hts' as <-.
  set (key := fun v => default 0 (parse_datetime E (LScalar v) 1)).
  assert (Hkey : forall x y, x ∈ timestamps -> y ∈ timestamps ->
                   (value_lt E x y = true <-> key x < key y)).
  { intros x y Hx Hy. unfold key.
    destruct (Hparse x Hx) as [tx Htx], (Hparse y Hy) as [ty Hty].
    rewrite Htx, Hty. simpl. by apply Hord. }
  destruct timestamps as [|x rest]; [done|].
  simpl in Hmin, Hmax. injection Hmin as Hmin. injection Hmax as Hmax.
  destruct (fold_min_spec (value_lt E) key rest x Hkey) as [_ Hlow].
  destruct (fold_max_spec (value_lt E) key rest x Hkey) as [_ Hhigh].
  rewrite Hmin in Hlow. rewrite Hmax in Hhigh.
  specialize (Hlow a Ha). specialize (Hhigh a Ha).
  unfold key in Hlow, Hhigh. rewrite Hfrom, Ht in Hlow.
  rewrite Hnewest, Ht in Hhigh. simpl in *. lia.
Qed.

(** *** The combined strategy *)

(** X13: when neither split applies (the common conditions fail, or the
    column test fails and the query is not ordered by [-timestamp] with an
    offset below 1000), the combined strategy with the simple strategy as
    its default is one runner call on the caller's request as it is. *)
Theorem legacy_execute_falls_back (cfg : Config)
    (split_spec : option ColumnSplitSpec) (fuel : nat) (request : loc)
    (original : Request) (w : World St) s' r' result :
  requests w !! request = Some original ->
  (Legacy_common_conditions cfg (query original) = false
   \/ (Legacy_use_col_split E split_spec (query original) = false
       /\ orderby_is_desc "timestamp" (query original)
          && (offset (query original) <? 1000) = false)) ->
  run R (runner_state w) original = (s', r', result) ->
  exists final w',
    Legacy_execute E R cfg split_spec (Simple_execute R) fuel request w
      = (Ok (Some final), w')
    /\ Simple_execute R request w = (Ok final, w')
    /\ calls w' = calls w ++ [(request, original)]
    /\ results w' !! final = Some result.
Proof.
  intros Hreq Hcase Hrun.
  pose proof (call_runner_run w request original s' r' result Hreq Hrun) as Hcall.
  eexists _, _. split; [|split; [exact Hcall|split; [done|apply lookup_insert_eq]]].
  unfold Legacy_execute, bind at 1, get_request. rewrite Hreq. simpl.
  destruct Hcase as [Hcommon | [Hcol Htime]].
  - rewrite Hcommon. unfold bind, Simple_execute. by rewrite Hcall.
  - rewrite Hcol, Htime.
    destruct (Legacy_common_conditions cfg (query original));
      unfold bind, Simple_execute; by rewrite Hcall.
Qed.

(** X14: for a non-negative [use_split] and a non-negative limit the
    common conditions of the combined strategy are those of
    [_is_query_splittable]; they are tested by truthiness, so a negative
    flag or limit passes them where [_is_query_splittable] refuses it. *)
Theorem legacy_common_conditions_agree (cfg : Config) (q : Query) :
  (0 <= use_split cfg /\ 0 <= default 0 (limit q) ->
   Legacy_common_conditions cfg q = _is_query_splittable cfg q)
  /\ ((use_split cfg < 0 \/ default 0 (limit q) < 0) ->
      _is_query_splittable cfg q = false
      /\ (use_split cfg <> 0 -> default 0 (limit q) <> 0 ->
          (groupby q = None \/ groupby q = Some []) ->
          Legacy_common_conditions cfg q = true)).
Proof.
  unfold Legacy_common_conditions, _is_query_splittable.
  assert (Hl : match limit q with
               | Some l => if l =? 0 then 0 else l
               | None => 0
               end = default 0 (limit q)).
  { destruct (limit q) as [l|]; [|done]. simpl.
    destruct (l =? 0) eqn:El; [apply Z.eqb_eq in El|]; lia. }
  rewrite Hl. split.
  - intros [Hu Hlim]. f_equal. f_equal.
    + destruct (use_split cfg =? 0) eqn:E1, (0 <? use_split cfg) eqn:E2;
        try done; [apply Z.eqb_eq in E1; apply Z.ltb_lt in E2
                  |apply Z.eqb_neq in E1; apply Z.ltb_ge in E2]; lia.
    + destruct (default 0 (limit q) =? 0) eqn:E1, (0 <? default 0 (limit q)) eqn:E2;
        try done; [apply Z.eqb_eq in E1; apply Z.ltb_lt in E2
                  |apply Z.eqb_neq in E1; apply Z.ltb_ge in E2]; lia.
  - intros Hneg. split.
    + destruct (0 <? use_split cfg) eqn:E1; [|done].
      destruct (0 <? default 0 (limit q)) eqn:E2; [|done].
      apply Z.ltb_lt in E1, E2. lia.
    + intros Hu Hlim Hg.
      apply Z.eqb_neq in Hu, Hlim. rewrite Hu, Hlim.
      by destruct Hg as [-> | ->].
Qed.

(** X15: [__time_split] reads the range from the timeseries extension:
    without that extension it raises [KeyError] before any runner call,
    and so does the combined strategy when it takes that branch. *)
Theorem legacy_time_split_needs_extension (cfg : Config)
    (split_spec : option ColumnSplitSpec)
    (default_strategy : loc -> M St loc) (fuel : nat) (request : loc)
    (original : Request) (w : World St) :
  requests w !! request = Some original ->
  extensions original !! "timeseries" = None ->
  Legacy_time_split E R cfg fuel request w = (Raise KeyError, w)
  /\ (Legacy_common_conditions cfg (query original) = true ->
      Legacy_use_col_split E split_spec (query original) = false ->
      orderby_is_desc "timestamp" (query original) = true ->
      offset (query original) < 1000 ->
      Legacy_execute E R cfg split_spec default_strategy fuel request w
      = (Raise KeyError, w)).
Proof.
  intros Hreq Hext.
  assert (Hts : Legacy_time_split E R cfg fuel request w = (Raise KeyError, w)).
  { unfold Legacy_time_split, bind at 1, get_request. rewrite Hreq. simpl.
    unfold bind at 1, get_extension, bind at 1, get_request.
    rewrite Hreq. simpl. unfold bind at 1. by rewrite Hext. }
  split; [exact Hts|].
  intros Hcommon Hcol Horder Hoff.
  unfold Legacy_execute, bind at 1, get_request. rewrite Hreq. simpl.
  rewrite Hcommon, Hcol, Horder.
  apply Z.ltb_lt in Hoff. rewrite Hoff. simpl. exact Hts.
Qed.

(** *** Migrations of the events table *)

Lemma option_list_nil {A} (b : bool) (x : A) :
  (if b then [x] else []) = [] <-> b = false.
Proof. by destruct b. Qed.

Lemma length_option_list {A} (b : bool) (x : A) :
  length (if b then [x] else []) = if b then 1%nat else 0%nat.
Proof. by destruct b. Qed.

Lemma length_filter_sum {A} (f : A -> bool) (l : list A) :
  length (List.filter f l)
  = fold_right (fun x n => ((if f x then 1 else 0) + n)%nat) 0%nat l.
Proof.
  induction l as [|x l IH]; [done|].
  simpl. destruct (f x); simpl; by rewrite IH.
Qed.

(** X16: [events_migrations] has nothing to do exactly when the schema has
    the eight columns it would add and no [device_model] column. *)
Theorem events_migrations_empty {V} (clickhouse_table : string)
    (current_schema : gmap string V) :
  events_migrations clickhouse_table current_schema = [] <->
  (forall column, In column events_expected_columns ->
                  is_Some (current_schema !! column))
  /\ current_schema !! "device_model" = None.
Proof.
  unfold events_migrations, events_expected_columns.
  rewrite !app_nil, !option_list_nil, !negb_false_iff, !bool_decide_eq_true,
    bool_decide_eq_false.
  split.
  - intros (H1 & H2 & H3 & H4 & H5 & H6 & H7 & H8 & H9). split.
    + intros column Hin. simpl in Hin.
      repeat (destruct Hin as [<- | Hin]; [done|]). done.
    + destruct (current_schema !! "device_model") eqn:Hd; [|done].
      exfalso. apply H2. by eexists.
  - intros [Hall Hd].
    repeat split; try (apply Hall; simpl; tauto).
    rewrite Hd. by intros [? ?].
Qed.

(** X17: every statement [events_migrations] returns is an [ALTER TABLE] on
    the table it was given, and there is one statement per expected column
    that is absent, plus one when [device_model] is present. *)
Theorem events_migrations_statements {V} (clickhouse_table : string)
    (current_schema : gmap string V) :
  Forall (fun statement =>
            exists rest, statement
                         = String.append "ALTER TABLE "
                             (String.append clickhouse_table rest))
    (events_migrations clickhouse_table current_schema)
  /\ length (events_migrations clickhouse_table current_schema)
     = (length (List.filter
                  (fun column =>
                     negb (bool_decide (is_Some (current_schema !! column))))
                  events_expected_columns)
        + (if bool_decide (is_Some (current_schema !! "device_model"))
           then 1 else 0))%nat.
Proof.
  unfold events_migrations, events_expected_columns. split.
  - repeat (apply Forall_app; split);
      match goal with
      | |- Forall _ (if ?b then _ else _) =>
          destruct b; [|constructor]; constructor; [by eexists|constructor]
      end.
  - rewrite !length_app, !length_option_list, length_filter_sum.
    cbv beta zeta iota delta [fold_right].
    destruct (bool_decide (is_Some (current_schema !! "device_model"))); lia.
Qed.

(** *** Conditions of the sessions entity *)

(** X18: [process_condition] never changes the column or the operator of a
    condition; it changes the literal only of a comparison on [started] or
    [received] whose literal is a string, into the datetime that string
    parses to; applied to its own result it changes nothing more. *)
Theorem process_condition_parses_once
    (condition condition' : string * string * ConditionValue) :
  process_condition E condition = Some condition' ->
  condition'.1 = condition.1
  /\ process_condition E condition' = Some condition'
  /\ (condition' = condition
      \/ exists s t,
           condition.2 = Unparsed (LScalar (SStr s))
           /\ parse_datetime E (LScalar (SStr s)) 1 = Some t
           /\ condition'.2 = Datetime t
           /\ In condition.1.1 time_parse_columns
           /\ In condition.1.2 comparison_operators).
Proof.
  destruct condition as [[lhs op] lit]. unfold process_condition at 1.
  destruct lit as [[[s|n]|vs]|t]; try (intros [= <-]; by repeat split; auto).
  destruct (bool_decide (lhs ∈ time_parse_columns)) eqn:Hl; simpl;
    [|intros [= <-]; simpl; rewrite Hl; by repeat split; auto].
  destruct (bool_decide (op ∈ comparison_operators)) eqn:Ho; simpl;
    [|intros [= <-]; simpl; rewrite Hl, Ho; by repeat split; auto].
  destruct (parse_datetime E (LScalar (SStr s)) 1) as [t|] eqn:Hp; [|done].
  intros [= <-]. simpl. split; [done|]. split; [done|]. right.
  exists s, t. apply bool_decide_eq_true in Hl, Ho.
  apply list_elem_of_In in Hl, Ho. by repeat split.
Qed.

End Engine.

(** ** The strategies on concrete requests *)

Lemma demo_parse_isoformat x :
  parse_datetime demo_env (iso_literal demo_env x) 1 = Some x.
Proof.
  simpl. unfold demo_isoformat. by rewrite NilEmpty.isi, DecimalZ.of_to.
Qed.


Lemma demo_set_semantics : set_semantics demo_env.
Proof.
  intros xs. split; [apply NoDup_remove_dups|].
  intros x. apply elem_of_remove_dups.
Qed.


Lemma time_split_loop_terminates_witness :
  exists v' w',
    time_split_loop (demo_runner demo_table)
      (TimeSplit_prepare demo_env "timestamp" 0%nat 2) 2 0 4
      (mkVars None 7200000000 3600000000 0 0 3600)
      (demo_world (demo_request 2 0 0 7200)) = (Ok v', w')
    /\ loop_condition 2 v' = false.
Proof.
  destruct (time_split_loop_terminates demo_env (demo_runner demo_table)
              "timestamp" 0%nat (demo_request 2 0 0 7200) 2 0 7200000000
              3600000000 3600 0 (demo_world (demo_request 2 0 0 7200)) 4)
    as (v' & w' & Hloop & Hexit & _); try lia.
  - reflexivity.
  - vm_compute; lia.
  - exists v', w'. exact (conj Hloop Hexit).
Defined.

Lemma time_split_sub_request_witness :
  exists v' w' l sub,
    time_split_body (demo_runner demo_table)
      (TimeSplit_prepare demo_env "timestamp" 0%nat 2) 2 0 (demo_vars 0)
      (demo_world (demo_request 2 0 0 7200)) = (Ok v', w')
    /\ calls w' = [(l, sub)]
    /\ l <> 0%nat
    /\ offset (query sub) = 0
    /\ limit (query sub) = Some 2.
Proof.
  destruct (time_split_sub_request demo_env (demo_runner demo_table)
              "timestamp" 0%nat (demo_request 2 0 0 7200) 2 0 (demo_vars 0)
              (demo_world (demo_request 2 0 0 7200)))
    as (v' & w' & l & sub & Hb & Hc & Hne & _ & _ & Ho & Hl & _).
  - reflexivity.
  - exact I.
  - exists v', w', l, sub.
    exact (conj Hb (conj Hc (conj Hne (conj Ho Hl)))).
Defined.

Lemma column_split_empty_first_phase_witness :
  exists final w',
    ColumnSplit_execute demo_env (demo_runner []) demo_config
      "event_id" "project_id" "timestamp" 0%nat
      (demo_world (demo_request 2 0 0 7200)) = (Ok (Some final), w')
    /\ length (calls w') = 2%nat.
Proof.
  destruct (column_split_empty_first_phase demo_env (demo_runner [])
              demo_config "event_id" "project_id" "timestamp" 0%nat
              (demo_request 2 0 0 7200) (demo_world (demo_request 2 0 0 7200))
              1%nat
              (with_query (set_limit 0)
                 (minimal_request "event_id" "project_id" "timestamp"
                    (demo_request 2 0 0 7200)))
              (mkResult [] "")
              2%nat (with_query (set_limit 0) (demo_request 2 0 0 7200))
              (mkResult [] ""))
    as (final & w' & Hexec & _ & _ & Hlen).
  - reflexivity.
  - vm_compute; reflexivity.
  - reflexivity.
  - reflexivity.
  - reflexivity.
  - by exists final, w'.
Defined.

Lemma column_split_second_request_witness :
  exists final w' l1 l2 second,
    ColumnSplit_execute demo_env (demo_runner demo_table) demo_config
      "event_id" "project_id" "timestamp" 0%nat
      (demo_world (demo_request 2 0 0 7200)) = (Ok (Some final), w')
    /\ calls w'
       = [(l1, minimal_request "event_id" "project_id" "timestamp"
                 (demo_request 2 0 0 7200));
          (l2, second)]
    /\ In (Simple (Col "event_id") "IN" (LList [SInt 3; SInt 2]))
          (get_conditions (query second))
    /\ offset (query second) = 0
    /\ limit (query second) = Some 2.
Proof.
  destruct (column_split_second_request demo_env (demo_runner demo_table)
              demo_config "event_id" "project_id" "timestamp" 0%nat
              (demo_request 2 0 0 7200) (demo_world (demo_request 2 0 0 7200))
              1%nat
              (with_query (set_limit 0)
                 (minimal_request "event_id" "project_id" "timestamp"
                    (demo_request 2 0 0 7200)))
              (mkResult [demo_row 3 1 7000; demo_row 2 1 5000] "")
              (mkCandidates [SInt 3; SInt 2] [SInt 1] 5000000000 7001000000))
    as (final & w' & l1 & l2 & second & ids & projects & timestamps & oldest
        & newest & newest_date & Hexec & Hcalls & _ & _ & _ & _ & _ & _ & _
        & _ & _ & _ & _ & _ & _ & _ & Hin & Hoff & Hlim & _).
  - exact demo_set_semantics.
  - reflexivity.
  - vm_compute; reflexivity.
  - vm_compute; reflexivity.
  - discriminate.
  - vm_compute; reflexivity.
  - exists final, w', l1, l2, second.
    exact (conj Hexec (conj Hcalls (conj Hin (conj Hoff Hlim)))).
Defined.

Lemma split_keeps_original_witness :
  original_untouched 0%nat (demo_request 2 0 0 7200)
    (demo_world (demo_request 2 0 0 7200))
    (TimeSplit_execute demo_env (demo_runner demo_table) demo_config
       "timestamp" 10 0%nat (demo_world (demo_request 2 0 0 7200))).2
  /\ original_untouched 0%nat (demo_request 2 0 0 7200)
       (demo_world (demo_request 2 0 0 7200))
       (ColumnSplit_execute demo_env (demo_runner demo_table) demo_config
          "event_id" "project_id" "timestamp" 0%nat
          (demo_world (demo_request 2 0 0 7200))).2.
Proof.
  destruct (split_keeps_original demo_env (demo_runner demo_table) demo_config
              "event_id" "project_id" "timestamp" 10 0%nat
              (demo_request 2 0 0 7200) (demo_world (demo_request 2 0 0 7200)))
    as [Htime Hcolumn].
  - reflexivity.
  - split.
    + eapply Htime. apply surjective_pairing.
    + eapply Hcolumn; [|apply surjective_pairing].
      intros H. apply (f_equal length) in H. vm_compute in H. discriminate.
Defined.



(** *** Further properties on concrete requests *)

Lemma demo_runner_honours_limit table : honours_limit (demo_runner table).
Proof.
  intros s r l Hl. simpl. unfold ideal_select, paginate. rewrite Hl.
  unfold len. rewrite length_firstn. lia.
Qed.

Lemma demo_lt_parse a b ta tb :
  parse_datetime demo_env (LScalar a) 1 = Some ta ->
  parse_datetime demo_env (LScalar b) 1 = Some tb ->
  value_lt demo_env a b = true <-> ta < tb.
Proof.
  destruct a as [x|n], b as [y|m]; try discriminate.
  intros Ha Hb. change (value_lt demo_env (SStr x) (SStr y))
    with (match parse_datetime demo_env (LScalar (SStr x)) 1,
                parse_datetime demo_env (LScalar (SStr y)) 1 with
          | Some x', Some y' => x' <? y'
          | _, _ => false
          end).
  rewrite Ha, Hb. apply Z.ltb_lt.
Qed.

Lemma replace_condition_other_lookups_witness :
  first_literal
    (get_conditions
       (_replace_condition "timestamp" ">=" (iso_literal demo_env 5)
          (demo_query 2 0 0 7200))) "timestamp" "<"
  = first_literal (get_conditions (demo_query 2 0 0 7200)) "timestamp" "<".
Proof.
  apply (replace_condition_other_lookups "timestamp" ">=" "timestamp" "<").
  discriminate.
Defined.

Lemma splitting_switched_off_witness :
  TimeSplit_execute demo_env (demo_runner demo_table) (mkConfig 0 1 3600)
    "timestamp" 10 0%nat (demo_world (demo_request 2 0 0 7200))
  = (Ok None, demo_world (demo_request 2 0 0 7200))
  /\ ColumnSplit_execute demo_env (demo_runner demo_table) (mkConfig 0 1 3600)
       "event_id" "project_id" "timestamp" 0%nat
       (demo_world (demo_request 2 0 0 7200))
     = (Ok None, demo_world (demo_request 2 0 0 7200)).
Proof.
  apply (splitting_switched_off demo_env (demo_runner demo_table)
           (mkConfig 0 1 3600) "event_id" "project_id" "timestamp" 10 0%nat
           (demo_request 2 0 0 7200) (demo_world (demo_request 2 0 0 7200))).
  - reflexivity.
  - reflexivity.
Defined.

Lemma time_split_result_is_concatenation_witness :
  exists result w' new all,
    TimeSplit_execute demo_env (demo_runner demo_table) demo_config
      "timestamp" 10 0%nat (demo_world (demo_request 2 1 0 7200))
    = (Ok (Some result), w')
    /\ calls w' = new
    /\ replay (demo_runner demo_table) 0%nat (map snd new)
       = (runner_state w', all)
    /\ data <$> results w' !! result = Some (skipn 1 all).
Proof.
  destruct (time_split_result_is_concatenation demo_env
              (demo_runner demo_table) demo_config "timestamp" 10 0%nat
              (demo_request 2 1 0 7200) (demo_world (demo_request 2 1 0 7200))
              (iso_literal demo_env 7200000000) (iso_literal demo_env 0)
              7200000000 0 3600000000)
    as (result & w' & new & all & Hexec & Hcalls & Hreplay & Hdata).
  - reflexivity.
  - vm_compute; reflexivity.
  - simpl; lia.
  - reflexivity.
  - reflexivity.
  - vm_compute; reflexivity.
  - vm_compute; reflexivity.
  - vm_compute; reflexivity.
  - lia.
  - simpl; lia.
  - vm_compute; lia.
  - exists result, w', new, all.
    exact (conj Hexec (conj Hcalls (conj Hreplay Hdata))).
Defined.

Lemma time_split_at_most_limit_witness :
  exists result w' rows,
    TimeSplit_execute demo_env (demo_runner demo_table) demo_config
      "timestamp" 10 0%nat (demo_world (demo_request 2 1 0 7200))
    = (Ok (Some result), w')
    /\ data <$> results w' !! result = Some rows
    /\ len rows <= 2.
Proof.
  destruct (time_split_at_most_limit demo_env (demo_runner demo_table)
              demo_config "timestamp" 10 0%nat
              (demo_request 2 1 0 7200) (demo_world (demo_request 2 1 0 7200))
              (iso_literal demo_env 7200000000) (iso_literal demo_env 0)
              7200000000 0 3600000000)
    as (result & w' & rows & Hexec & Hdata & Hlen).
  - exact (demo_runner_honours_limit demo_table).
  - reflexivity.
  - vm_compute; reflexivity.
  - simpl; lia.
  - reflexivity.
  - reflexivity.
  - vm_compute; reflexivity.
  - vm_compute; reflexivity.
  - vm_compute; reflexivity.
  - lia.
  - simpl; lia.
  - vm_compute; lia.
  - exists result, w', rows. exact (conj Hexec (conj Hdata Hlen)).
Defined.

Lemma time_split_windows_witness :
  exists result w' new windows,
    TimeSplit_execute demo_env (demo_runner demo_table) demo_config
      "timestamp" 10 0%nat (demo_world (demo_request 2 1 0 7200))
    = (Ok (Some result), w')
    /\ calls w' = new
    /\ Forall2 (probes demo_env "timestamp" 2 (demo_request 2 1 0 7200))
         new windows
    /\ windows <> []
    /\ contiguous 7200000000 windows
    /\ Forall (fun win => 0 <= win.1) windows.
Proof.
  destruct (time_split_windows demo_env (demo_runner demo_table)
              demo_config "timestamp" 10 0%nat
              (demo_request 2 1 0 7200) (demo_world (demo_request 2 1 0 7200))
              (iso_literal demo_env 7200000000) (iso_literal demo_env 0)
              7200000000 0 3600000000)
    as (result & w' & new & windows & Hexec & Hcalls & Hprobes & Hne & Hcont
        & Hlow).
  - reflexivity.
  - vm_compute; reflexivity.
  - reflexivity.
  - reflexivity.
  - vm_compute; reflexivity.
  - vm_compute; reflexivity.
  - vm_compute; reflexivity.
  - lia.
  - simpl; lia.
  - vm_compute; lia.
  - exists result, w', new, windows.
    exact (conj Hexec (conj Hcalls (conj Hprobes (conj Hne (conj Hcont Hlow))))).
Defined.

Lemma time_split_single_probe_witness :
  exists result w' l sub,
    TimeSplit_execute demo_env (demo_runner demo_table) demo_config
      "timestamp" 10 0%nat (demo_world (demo_request 1 0 0 7200))
    = (Ok (Some result), w')
    /\ calls w' = [(l, sub)]
    /\ data <$> results w' !! result
       = Some (data (run (demo_runner demo_table) 0%nat sub).2).
Proof.
  destruct (time_split_single_probe demo_env (demo_runner demo_table)
              demo_config "timestamp" 10 0%nat
              (demo_request 1 0 0 7200) (demo_world (demo_request 1 0 0 7200))
              (iso_literal demo_env 7200000000) (iso_literal demo_env 0)
              7200000000 0 3600000000)
    as (result & w' & Hexec & Hcalls & Hdata).
  - reflexivity.
  - vm_compute; reflexivity.
  - simpl; lia.
  - reflexivity.
  - reflexivity.
  - vm_compute; reflexivity.
  - vm_compute; reflexivity.
  - vm_compute; reflexivity.
  - lia.
  - simpl; lia.
  - vm_compute; lia.
  - vm_compute. discriminate.
  - eexists result, w', _, _. exact (conj Hexec (conj Hcalls Hdata)).
Defined.

Lemma time_split_first_window_overflow_witness :
  TimeSplit_execute demo_env (demo_runner demo_table) demo_config
    "timestamp" 10 0%nat (demo_world (demo_request 2 0 0 1800))
  = (Raise OverflowError, demo_world (demo_request 2 0 0 1800))
  /\ next_split_start 1800000000 3600 0 = 0.
Proof.
  apply (time_split_first_window_overflow demo_env (demo_runner demo_table)
           demo_config "timestamp" 10 0%nat
           (demo_request 2 0 0 1800) (demo_world (demo_request 2 0 0 1800))
           (iso_literal demo_env 1800000000) (iso_literal demo_env 0)
           1800000000 0).
  - reflexivity.
  - vm_compute; reflexivity.
  - reflexivity.
  - reflexivity.
  - vm_compute; reflexivity.
  - vm_compute; reflexivity.
  - simpl; lia.
  - simpl; lia.
Defined.

Lemma column_split_range_contains_witness :
  narrowed_from (mkCandidates [SInt 3; SInt 2] [SInt 1] 5000000000 7001000000)
  <= 7000000000
  < narrowed_to (mkCandidates [SInt 3; SInt 2] [SInt 1] 5000000000 7001000000).
Proof.
  apply (column_split_range_contains demo_env "event_id" "project_id"
           "timestamp" [demo_row 3 1 7000; demo_row 2 1 5000]
           (mkCandidates [SInt 3; SInt 2] [SInt 1] 5000000000 7001000000)
           [SStr (demo_isoformat 7000000000); SStr (demo_isoformat 5000000000)]
           ltac:(vm_compute; reflexivity) ltac:(vm_compute; reflexivity)
           (fun a b ta tb _ _ => demo_lt_parse a b ta tb)
           (fun a Ha =>
              match proj1 (list_elem_of_In _ _) Ha with
              | or_introl H =>
                  eq_ind _ (fun v => is_Some (parse_datetime demo_env (LScalar v) 1))
                    (ex_intro _ 7000000000 (demo_parse_isoformat 7000000000)) _ H
              | or_intror (or_introl H) =>
                  eq_ind _ (fun v => is_Some (parse_datetime demo_env (LScalar v) 1))
                    (ex_intro _ 5000000000 (demo_parse_isoformat 5000000000)) _ H
              | or_intror (or_intror H) => False_ind _ H
              end)
           (SStr (demo_isoformat 7000000000)) 7000000000).
  - left.
  - exact (demo_parse_isoformat 7000000000).
Defined.

Lemma legacy_execute_falls_back_witness :
  exists final w',
    Legacy_execute demo_env (demo_runner demo_table) (mkConfig 0 1 3600) None
      (Simple_execute (demo_runner demo_table)) 10 0%nat
      (demo_world (demo_request 2 0 0 7200)) = (Ok (Some final), w')
    /\ calls w' = [(0%nat, demo_request 2 0 0 7200)].
Proof.
  destruct (legacy_execute_falls_back demo_env (demo_runner demo_table)
              (mkConfig 0 1 3600) None 10 0%nat (demo_request 2 0 0 7200)
              (demo_world (demo_request 2 0 0 7200))
              1%nat (with_query (set_limit 0) (demo_request 2 0 0 7200))
              (mkResult (ideal_select demo_env "timestamp" demo_row_ts
                           demo_table (demo_request 2 0 0 7200)) ""))
    as (final & w' & Hexec & _ & Hcalls & _).
  - reflexivity.
  - left. reflexivity.
  - reflexivity.
  - exists final, w'. exact (conj Hexec Hcalls).
Defined.

Lemma legacy_time_split_needs_extension_witness :
  Legacy_time_split demo_env (demo_runner demo_table) demo_config 10 0%nat
    (demo_world (mkRequest (demo_query 2 0 0 7200) ∅))
  = (Raise KeyError, demo_world (mkRequest (demo_query 2 0 0 7200) ∅)).
Proof.
  apply (legacy_time_split_needs_extension demo_env (demo_runner demo_table)
           demo_config None (Simple_execute (demo_runner demo_table)) 10 0%nat
           (mkRequest (demo_query 2 0 0 7200) ∅)
           (demo_world (mkRequest (demo_query 2 0 0 7200) ∅))).
  - reflexivity.
  - reflexivity.
Defined.

Lemma process_condition_parses_once_witness :
  process_condition demo_env ("started", ">=", Datetime 5)
  = Some ("started", ">=", Datetime 5).
Proof.
  apply (process_condition_parses_once demo_env
           ("started", ">=", Unparsed (LScalar (SStr "5")))
           ("started", ">=", Datetime 5)).
  vm_compute; reflexivity.
Defined.

(** ** Where the code departs from the specification *)


(** C10: the column split rewrites the project and timestamp conditions
    a request has and adds none. For a request filtered by
    [project_id = 1] and [timestamp > 0] the precondition holds and the
    first phase returns two rows; the second request carries the two
    conditions as they were and the condition on the ids, with no [IN] on
    the project and no [>=] or [<] on the timestamp. *)
Lemma column_split_adds_no_filter :
  let original := demo_unfiltered_request in
  let R := demo_runner demo_table in
  let out := ColumnSplit_execute demo_env R demo_config
               "event_id" "project_id" "timestamp" 0%nat
               (demo_world original) in
  ColumnSplit_can_execute demo_env demo_config "event_id" "project_id"
    "timestamp" original = true
  /\ data (run R 0%nat
             (minimal_request "event_id" "project_id" "timestamp" original)).2
     = [demo_row 3 1 7000; demo_row 2 1 5000]
  /\ length (calls out.2) = 2%nat
  /\ (get_conditions ∘ query ∘ snd) <$> last (calls out.2)
     = Some [Simple (Col "project_id") "=" (LScalar (SInt 1));
             Simple (Col "timestamp") ">" (iso_literal demo_env 0);
             Simple (Col "event_id") "IN" (LList [SInt 3; SInt 2])]
  /\ (existsb (fun c => _identify_condition c "project_id" "IN"
                        || _identify_condition c "timestamp" ">="
                        || _identify_condition c "timestamp" "<")
        ∘ get_conditions ∘ query ∘ snd) <$> last (calls out.2)
     = Some false.
Proof.
  cbv zeta. split; [vm_compute; reflexivity|].
  split; [vm_compute; reflexivity|]. split; [vm_compute; reflexivity|].
  split; vm_compute; reflexivity.
Qed.

(** With no rows from the first phase the column split still calls the
    runner twice. *)
Lemma column_split_empty_two_calls :
  let original := demo_request 2 0 0 7200 in
  let out := ColumnSplit_execute demo_env (demo_runner []) demo_config
               "event_id" "project_id" "timestamp" 0%nat
               (demo_world original) in
  ColumnSplit_can_execute demo_env demo_config "event_id" "project_id"
    "timestamp" original = true
  /\ data (run (demo_runner []) 0%nat
             (minimal_request "event_id" "project_id" "timestamp" original)).2
     = []
  /\ length (calls out.2) = 2%nat
  /\ length (calls out.2) <> 1%nat.
Proof. vm_compute. repeat split; try reflexivity. discriminate. Qed.

(** With no rows from the first phase the second call of the column split
    is made on the caller's own request object, and a runner that writes
    to what it receives changes it: the limit 2 has become 0. *)
Lemma column_split_empty_mutates_original :
  let original := demo_request 2 0 0 7200 in
  let out := ColumnSplit_execute demo_env (demo_runner []) demo_config
               "event_id" "project_id" "timestamp" 0%nat
               (demo_world original) in
  requests (demo_world original) !! 0%nat = Some original
  /\ limit (query original) = Some 2
  /\ (limit ∘ query) <$> requests out.2 !! 0%nat = Some (Some 0)
  /\ last (calls out.2) = Some (0%nat, original)
  /\ ~ original_untouched 0%nat original (demo_world original) out.2.
Proof.
  cbv zeta. split; [reflexivity|]. split; [reflexivity|].
  split; [vm_compute; reflexivity|]. split; [vm_compute; reflexivity|].
  intros [H _]. apply (f_equal (fmap (limit ∘ query))) in H.
  vm_compute in H. discriminate.
Qed.



(** C9: in the first iteration the estimate divides by the row count left
    after the offset was trimmed. With limit 2, offset 1 and one row in
    the first window, the sub-query returns one row, and the step goes
    from 3600 to 36000 (the growth for an empty probe) where dividing by
    the rows returned gives 3600 * ceil(2 / 1) = 7200. *)
Lemma first_window_estimate_after_trim :
  let original := demo_request 2 1 0 7200 in
  let R := demo_runner demo_sparse_table in
  let sub := TimeSplit_sub_request demo_env "timestamp" 2 (demo_vars 1)
               original in
  let out := time_split_body R
               (TimeSplit_prepare demo_env "timestamp" 0%nat 2) 2 0
               (demo_vars 1) (demo_world original) in
  len (data (run R 0%nat sub).2) = 1
  /\ calls out.2 = [(1%nat, sub)]
  /\ step <$> returned_vars out = Some (3600 * STEP_GROWTH)
  /\ 3600 * STEP_GROWTH <> 3600 * ceil_div (2 - 0) 1.
Proof. vm_compute. repeat split; try reflexivity. discriminate. Qed.
